(** * Routing decision engine of the order-entry router (src/App.js)

    A shallow embedding of [determineRouting] and of the roster update that
    [processOrder] passes to [setTeam], followed by the properties of the
    routing specification that were checked against them. The manual edit of
    the counters ([updateTeamStats]), the retry loop around the extraction
    service ([fetchWithBackoff]) and the clean-up of the answer text in
    [processOrder] are embedded as well, with properties of their own.

    Modelling conventions.
    - A JavaScript string is a [string]; the characters considered are the
      ASCII ones, so [toUpperCase] only moves a-z.
    - A JavaScript number is an integer [Z] (counts of lines, pages, cards).
      The only falsy number is therefore [0].
    - A field of the parsed JSON is a [js A]: missing ([undefined]), [null]
      or present ([val]).
    - A call that throws is an [outcome] [Throw] carrying the name of the
      error class; a normal return is [Return]. *)

From Stdlib Require Import ZArith List Bool Lia.
From Stdlib Require Import Strings.String Strings.Ascii Numbers.DecimalString.
From Stdlib Require Import Numbers.DecimalPos.
Import ListNotations.

Open Scope string_scope.
Open Scope Z_scope.

(** ** JavaScript values and primitives *)

Module Js.

Inductive js (A : Type) : Type :=
| undefined : js A
| null : js A
| val : A -> js A.

Arguments undefined {A}.
Arguments null {A}.
Arguments val {A} _.

Inductive outcome (A : Type) : Type :=
| Return : A -> outcome A
| Throw : string -> outcome A.

Arguments Return {A} _.
Arguments Throw {A} _.

Definition nl : string := String (ascii_of_nat 10) EmptyString.
Definition dq : string := String (ascii_of_nat 34) EmptyString.

(** [x || []] for an array field: arrays are always truthy. *)
Definition orEmpty {A : Type} (x : js (list A)) : list A :=
  match x with
  | val l => l
  | _ => []
  end.

(** [x || d] for a number field. *)
Definition orNum (x : js Z) (d : Z) : Z :=
  match x with
  | val n => if n =? 0 then d else n
  | _ => d
  end.

(** Truthiness of a string: every string but the empty one. *)
Definition truthy (s : string) : bool :=
  match s with
  | EmptyString => false
  | String _ _ => true
  end.

(** [x || d] for a string field. *)
Definition orStr (x : js string) (d : string) : string :=
  match x with
  | val s => if truthy s then s else d
  | _ => d
  end.

(** Number.prototype.toString on an integer. *)
Definition numberToString (n : Z) : string :=
  NilZero.string_of_int (Z.to_int n).

(** A string field inside a template literal. *)
Definition showStr (x : js string) : string :=
  match x with
  | undefined => "undefined"
  | null => "null"
  | val s => s
  end.

(** A number field inside a template literal. *)
Definition showNum (x : js Z) : string :=
  match x with
  | undefined => "undefined"
  | null => "null"
  | val n => numberToString n
  end.

(** An array element under [Array.prototype.join]: [undefined] and [null]
    are rendered as the empty string. *)
Definition joinElem (x : js string) : string :=
  match x with
  | val s => s
  | _ => EmptyString
  end.

Definition join (sep : string) (l : list (js string)) : string :=
  String.concat sep (map joinElem l).

Definition startsWith (p s : string) : bool := String.prefix p s.

(** [hay.includes(needle)]: [needle] occurs in [hay] as a substring. *)
Fixpoint includes (needle hay : string) : bool :=
  String.prefix needle hay ||
  match hay with
  | EmptyString => false
  | String _ rest => includes needle rest
  end.

Definition upperChar (c : ascii) : ascii :=
  let n := nat_of_ascii c in
  if (97 <=? n)%nat && (n <=? 122)%nat then ascii_of_nat (n - 32) else c.

Fixpoint toUpperCase (s : string) : string :=
  match s with
  | EmptyString => EmptyString
  | String c rest => String (upperChar c) (toUpperCase rest)
  end.

(** [arr.includes(x)] on an array of strings. *)
Definition arrayIncludes (arr : list string) (x : string) : bool :=
  existsb (String.eqb x) arr.

End Js.

Import Js.

(** ** Data model *)

(** One extracted order line. *)
Record LineItem : Type := {
  lineNumber : js string;
  pageNumber : js Z;
  partNumber : js string;
  prefixes : js (list string);
  quantity : js Z
}.

(** An entry of [itemsOnPage]. *)
Record PageItem : Type := {
  qty : js string;
  desc : js string
}.

Record Page : Type := {
  page_pageNumber : js Z;
  page_type : js string;
  summary : js string;
  itemsOnPage : js (list PageItem)
}.

(** The parsed answer of the extraction service ([extractedData]). *)
Record ExtractionResult : Type := {
  poNumber : js string;
  pageCount : js Z;
  totalLineCount : js Z;
  routingKeywords : js (list string);
  lineItems : js (list LineItem);
  pages : js (list Page)
}.

(** A member of the [team] state. *)
Record TeamMember : Type := {
  id : Z;
  name : string;
  role : string;
  cards : Z;
  totalPages : Z;
  color : string
}.

(** The object returned by [determineRouting]. *)
Record RoutingDecision : Type := {
  route : string;
  flags : list string;
  reason : string;
  evidence : js string;
  logs : list string;
  decision_pageCount : Z
}.

(** The local variables of [determineRouting]. *)
Record Locals : Type := {
  l_logs : list string;
  l_route : string;
  l_flags : list string;
  l_reason : string;
  l_evidence : js string;
  l_isKeying : bool
}.

(** ** The routing rules engine *)

Definition keyingPrefixes : list string :=
  ["10"; "21"; "22"; "51"; "59"; "82"; "83"; "73"; "AL"].

Definition keyingKeywords : list string :=
  ["MK"; "GMK"; "SKD"; "KA"; "KEYED"; "MASTER KEY"; "GRAND MASTER"; "KESO"].

(** The character class [0-9A-Z] of the clean-up regular expression. *)
Definition keptChar (c : ascii) : bool :=
  let n := nat_of_ascii c in
  ((48 <=? n)%nat && (n <=? 57)%nat) || ((65 <=? n)%nat && (n <=? 90)%nat).

(** [p.replace(/[^0-9A-Z]/g, '')]. *)
Fixpoint cleanPrefix (p : string) : string :=
  match p with
  | EmptyString => EmptyString
  | String c rest =>
      if keptChar c then String c (cleanPrefix rest) else cleanPrefix rest
  end.

Definition cleanPrefixList (item : LineItem) : list string :=
  map cleanPrefix (orEmpty (prefixes item)).

(** The guard of the "Hallucination Fix":
    [item.partNumber && item.partNumber.startsWith("31") &&
     cleanPrefixList.includes("AL")]. *)
Definition falsePositive (item : LineItem) : bool :=
  match partNumber item with
  | val pn => truthy pn && startsWith "31" pn && arrayIncludes (cleanPrefixList item) "AL"
  | _ => false
  end.

(** [cleanPrefixList.find(p => keyingPrefixes.includes(p))]. *)
Definition badPrefix (item : LineItem) : option string :=
  find (arrayIncludes keyingPrefixes) (cleanPrefixList item).

Definition initLocals : Locals :=
  {| l_logs := ["> Initializing Routing Protocol..."; "> Scanning content for flags..."];
     l_route := "Order Entry";
     l_flags := [];
     l_reason := "Standard Order";
     l_evidence := null;
     l_isKeying := false |}.

(** [data.totalLineCount || data.lineItems?.length || 0]. *)
Definition actualLineCount (data : ExtractionResult) : Z :=
  match totalLineCount data with
  | val n =>
      if n =? 0 then Z.of_nat (List.length (orEmpty (lineItems data))) else n
  | _ => Z.of_nat (List.length (orEmpty (lineItems data)))
  end.

(** Step 1, "Check Line Item Volume". *)
Definition checkVolume (data : ExtractionResult) (st : Locals) : Locals :=
  let n := actualLineCount data in
  if n >=? 10 then
    {| l_logs := l_logs st ++ ["! ALERT: High Volume (" ++ numberToString n ++ " lines)"];
       l_route := l_route st;
       l_flags := l_flags st ++ ["10+ LINES"];
       l_reason := l_reason st;
       l_evidence := l_evidence st;
       l_isKeying := l_isKeying st |}
  else if (n >? 0) && (n <=? 3) then
    {| l_logs := l_logs st;
       l_route := l_route st;
       l_flags := l_flags st ++ ["CHECKERED FLAG"];
       l_reason := l_reason st;
       l_evidence := l_evidence st;
       l_isKeying := l_isKeying st |}
  else st.

(** The page shown in the evidence block: [item.pageNumber || '?']. *)
Definition pageOrUnknown (x : js Z) : string :=
  match x with
  | val n => if n =? 0 then "?" else numberToString n
  | _ => "?"
  end.

Definition prefixEvidence (item : LineItem) (bad : string) : string :=
  "LINE DETECTED:" ++ nl ++
  "Line #: " ++ orStr (lineNumber item) "N/A" ++ nl ++
  "Page: " ++ pageOrUnknown (pageNumber item) ++ nl ++
  "Part: " ++ showStr (partNumber item) ++ nl ++
  "Prefix: [" ++ bad ++ "]".

(** The body of [if (badPrefix) { ... break; }]. *)
Definition prefixMatched (item : LineItem) (bad : string) (st : Locals) : Locals :=
  {| l_logs := l_logs st ++
       ["> MATCH FOUND: Keying Prefix [" ++ bad ++ "] on Page " ++ showNum (pageNumber item)];
     l_route := l_route st;
     l_flags := l_flags st;
     l_reason := "Restricted Prefix '" ++ bad ++ "'";
     l_evidence := val (prefixEvidence item bad);
     l_isKeying := true |}.

(** [for (let item of data.lineItems)]: [continue] and a failed test go on
    with the rest, [break] returns. *)
Fixpoint lineItemLoop (items : list LineItem) (st : Locals) : Locals :=
  match items with
  | [] => st
  | item :: rest =>
      if falsePositive item then lineItemLoop rest st
      else
        match badPrefix item with
        | Some bad =>
            if truthy bad then prefixMatched item bad st
            else lineItemLoop rest st
        | None => lineItemLoop rest st
        end
  end.

(** Step 2, first half: [if (data.lineItems) { for ... }]. *)
Definition checkLineItems (data : ExtractionResult) (st : Locals) : Locals :=
  match lineItems data with
  | val items => lineItemLoop items st
  | _ => st
  end.

Definition safeSearchFields (data : ExtractionResult) : list (js string) :=
  map val (orEmpty (routingKeywords data)) ++
  map summary (orEmpty (pages data)) ++
  flat_map (fun p => map desc (orEmpty (itemsOnPage p))) (orEmpty (pages data)).

Definition globalText (data : ExtractionResult) : string :=
  toUpperCase (join " " (safeSearchFields data)).

(** [keyingKeywords.find(kw => globalText.includes(kw))]. *)
Definition foundKeyword (data : ExtractionResult) : option string :=
  find (fun kw => includes kw (globalText data)) keyingKeywords.

Definition keywordEvidence (kw : string) : string :=
  "KEYWORD DETECTED: " ++ dq ++ kw ++ dq ++ " found in notes/summary.".

(** Step 2, second half: [if (!isKeying) { ... }]. *)
Definition checkKeywords (data : ExtractionResult) (st : Locals) : Locals :=
  if l_isKeying st then st
  else
    match foundKeyword data with
    | Some kw =>
        if truthy kw then
          {| l_logs := l_logs st ++ ["> MATCH FOUND: Global Keyword [" ++ kw ++ "]"];
             l_route := l_route st;
             l_flags := l_flags st;
             l_reason := "Global Keyword Match";
             l_evidence := val (keywordEvidence kw);
             l_isKeying := true |}
        else st
    | None => st
    end.

(** [team.find(m => m.role.includes("Keying"))]. *)
Definition keyingRep (team : list TeamMember) : option TeamMember :=
  find (fun m => includes "Keying" (role m)) team.

(** [team.filter(m => m.role === "Order Entry")]. *)
Definition oeReps (team : list TeamMember) : list TeamMember :=
  filter (fun m => role m =? "Order Entry")%string team.

(** [Array.prototype.sort] is stable; with the comparator
    [(a, b) => a.totalPages - b.totalPages] an element moves behind another
    one only when it is strictly larger. *)
Fixpoint insertRep (x : TeamMember) (l : list TeamMember) : list TeamMember :=
  match l with
  | [] => [x]
  | y :: rest =>
      if totalPages y - totalPages x <? 0 then y :: insertRep x rest
      else x :: l
  end.

Definition sortByPages (l : list TeamMember) : list TeamMember :=
  fold_right insertRep [] l.

(** [oeReps.sort(...)[0]]; [None] stands for [undefined]. *)
Definition targetRep (team : list TeamMember) : option TeamMember :=
  hd_error (sortByPages (oeReps team)).

(** The final [if (isKeying) ... else ...]. Reading [targetRep.name] when
    [targetRep] is [undefined] throws a [TypeError]. *)
Definition assign (team : list TeamMember) (st : Locals) : outcome Locals :=
  if l_isKeying st then
    let route :=
      match keyingRep team with
      | Some rep => name rep
      | None => "Keying Dept"
      end in
    Return
      {| l_logs := l_logs st ++ ["> ROUTING: Directed to Special Handling (" ++ route ++ ")"];
         l_route := route;
         l_flags := l_flags st;
         l_reason := l_reason st;
         l_evidence := l_evidence st;
         l_isKeying := l_isKeying st |}
  else
    match targetRep team with
    | None => Throw "TypeError"
    | Some rep =>
        Return
          {| l_logs := l_logs st ++
               ["> No restrictions found.";
                "> Calculating workload balance...";
                "> ASSIGNMENT: " ++ name rep ++ " (Load: " ++ numberToString (totalPages rep) ++ ")"];
             l_route := name rep;
             l_flags := l_flags st;
             l_reason := "Lowest Page Load (" ++ numberToString (totalPages rep) ++ "pgs)";
             l_evidence := l_evidence st;
             l_isKeying := l_isKeying st |}
    end.

Definition determineRouting (team : list TeamMember) (data : ExtractionResult)
  : outcome RoutingDecision :=
  match assign team (checkKeywords data (checkLineItems data (checkVolume data initLocals))) with
  | Throw e => Throw e
  | Return st =>
      Return
        {| route := l_route st;
           flags := l_flags st;
           reason := l_reason st;
           evidence := l_evidence st;
           logs := l_logs st;
           decision_pageCount := orNum (pageCount data) 1 |}
  end.

(** ** The roster update of [processOrder] *)

(** [finalOrder = { ...extractedData, ...decision }]: the decision always
    carries [pageCount], so that is the one [finalOrder.pageCount] reads. *)
Definition finalOrderPageCount (decision : RoutingDecision) : js Z :=
  val (decision_pageCount decision).

(** The function given to [setTeam]. *)
Definition updateTeam (prevTeam : list TeamMember) (decision : RoutingDecision)
  : list TeamMember :=
  map (fun member =>
         if (name member =? route decision)%string then
           {| id := id member;
              name := name member;
              role := role member;
              cards := cards member + 1;
              totalPages := totalPages member + orNum (finalOrderPageCount decision) 1;
              color := color member |}
         else member)
      prevTeam.

(** [determineRouting] followed by the roster update, as [processOrder] runs
    them once the extraction is parsed. [team] is the roster the closure
    sees, [prevTeam] the one [setTeam] hands to the update. When
    [determineRouting] throws, [setTeam] is never reached. *)
Definition processOrder (team prevTeam : list TeamMember) (extractedData : ExtractionResult)
  : outcome (RoutingDecision * list TeamMember) :=
  match determineRouting team extractedData with
  | Throw e => Throw e
  | Return decision => Return (decision, updateTeam prevTeam decision)
  end.

Definition INITIAL_TEAM : list TeamMember :=
  [ {| id := 1; name := "Hector Origel"; role := "Order Entry"; cards := 5; totalPages := 45; color := "#3b82f6" |};
    {| id := 2; name := "Jairo Figueroa"; role := "Order Entry"; cards := 4; totalPages := 25; color := "#10b981" |};
    {| id := 5; name := "Claudia Franco"; role := "Order Entry"; cards := 9; totalPages := 12; color := "#ec4899" |};
    {| id := 6; name := "Emmanuel Rojas"; role := "Order Entry"; cards := 3; totalPages := 30; color := "#06b6d4" |};
    {| id := 7; name := "Paulina Lobo"; role := "Order Entry"; cards := 0; totalPages := 0; color := "#84cc16" |};
    {| id := 3; name := "Maureen Thompson"; role := "Intl/Keying"; cards := 12; totalPages := 60; color := "#8b5cf6" |};
    {| id := 4; name := "Susan Alpert"; role := "Chargebacks"; cards := 2; totalPages := 5; color := "#f59e0b" |} ].

(** ** Vocabulary of the specification *)

(** A line item is passed over by the scan: it is suppressed by the
    false-positive rule, or none of its cleaned prefixes is restricted. *)
Definition passedOver (item : LineItem) : Prop :=
  falsePositive item = true \/ badPrefix item = None.

(** A line item qualifies with prefix [bad]: it is not suppressed and [bad]
    is the first of its cleaned prefixes that is restricted. *)
Definition qualifies (item : LineItem) (bad : string) : Prop :=
  falsePositive item = false /\ badPrefix item = Some bad.

(** The document-level text mentions the keyword [kw]. *)
Definition mentions (data : ExtractionResult) (kw : string) : Prop :=
  In kw keyingKeywords /\ includes kw (globalText data) = true.

Definition noPrefixMatch (data : ExtractionResult) : Prop :=
  forall item, In item (orEmpty (lineItems data)) -> passedOver item.

Definition restrictionFound (data : ExtractionResult) : Prop :=
  (exists item bad, In item (orEmpty (lineItems data)) /\ qualifies item bad) \/
  (exists kw, mentions data kw).

Definition noRestriction (data : ExtractionResult) : Prop :=
  noPrefixMatch data /\
  forall kw, In kw keyingKeywords -> includes kw (globalText data) = false.

(** The locals once both detection phases have run. *)
Definition detect (data : ExtractionResult) : Locals :=
  checkKeywords data (checkLineItems data (checkVolume data initLocals)).

(** The normaliser as the specification words it: fold to upper case, then
    drop what is outside [0-9A-Z]. *)
Definition specNormalize (p : string) : string :=
  cleanPrefix (toUpperCase p).

Definition isLower (c : ascii) : bool :=
  let n := nat_of_ascii c in (97 <=? n)%nat && (n <=? 122)%nat.

(** The specialist route: first member whose role mentions Keying, or the
    fixed label. *)
Definition specialistRoute (team : list TeamMember) : string :=
  match keyingRep team with
  | Some rep => name rep
  | None => "Keying Dept"
  end.

(** The member record after one assignment of [pages] pages. *)
Definition credited (m : TeamMember) (pages : Z) : TeamMember :=
  {| id := id m;
     name := name m;
     role := role m;
     cards := cards m + 1;
     totalPages := totalPages m + pages;
     color := color m |}.

(** ** Sample orders and rosters *)

Module Sample.

Definition item (ln : string) (pg : Z) (pn : string) (pf : list string) : LineItem :=
  {| lineNumber := val ln; pageNumber := val pg; partNumber := val pn;
     prefixes := val pf; quantity := val 1 |}.

Definition page (text : string) : Page :=
  {| page_pageNumber := val 1; page_type := val "PO Data"; summary := val text;
     itemsOnPage := val [ {| qty := val "1"; desc := val "Mortise lock" |} ] |}.

Definition order (count : js Z) (items : list LineItem) (kws : list string)
           (pgs : list Page) : ExtractionResult :=
  {| poNumber := val "PO-1"; pageCount := val 7; totalLineCount := count;
     routingKeywords := val kws; lineItems := val items; pages := val pgs |}.

Definition member (i : Z) (n r : string) (c tp : Z) : TeamMember :=
  {| id := i; name := n; role := r; cards := c; totalPages := tp; color := "#3b82f6" |}.

(** The roster of the balancer example of the specification. *)
Definition rosterABC : list TeamMember :=
  [ member 1 "A" "Order Entry" 2 30;
    member 2 "B" "Order Entry" 1 10;
    member 3 "C" "Order Entry" 4 10 ].

(** A roster without any generalist. *)
Definition rosterNoGeneralist : list TeamMember :=
  [ member 3 "Maureen Thompson" "Intl/Keying" 12 60;
    member 4 "Susan Alpert" "Chargebacks" 2 5 ].

(** An order that carries no restricted prefix and no keyword. *)
Definition plainOrder : ExtractionResult :=
  order undefined [item "1" 1 "8804" ["12"]] ["Quick Ship"] [page "Two hinges"].

(** Three lines: the first is clean, the second and third are restricted;
    a keyword is present as well. *)
Definition line1 : LineItem := item "1" 1 "8804" ["12"].
Definition line2 : LineItem := item "2" 1 "8204" ["5-9"].
Definition line3 : LineItem := item "3" 2 "8813" ["10"].
Definition mixedOrder : ExtractionResult :=
  order (val 3) [line1; line2; line3] ["MK"] [page "Keyed alike"].

(** The suppressed pair of the false-positive rule. *)
Definition noisyLine : LineItem := item "1" 1 "3100-X" ["AL"].
Definition noisyOrder : ExtractionResult :=
  order undefined [noisyLine] [] [page "Two hinges"].

(** A count of zero next to one extracted line. *)
Definition zeroCountOrder : ExtractionResult :=
  order (val 0) [line1] [] [page "Two hinges"].

(** The same extraction with a count of 25 and no page count. *)
Definition hugeCountOrder : ExtractionResult :=
  {| poNumber := null; pageCount := undefined; totalLineCount := val 25;
     routingKeywords := val []; lineItems := val [line1];
     pages := val [page "Two hinges"] |}.

(** A keyword in mixed case inside a page summary. *)
Definition masterKeyPage : Page := page "Needs Master keY system".
Definition masterKeyOrder : ExtractionResult :=
  order (val 5) [line1] ["Quick Ship"] [masterKeyPage].

(** What the engine returns for [masterKeyOrder] on [rosterABC]. *)
Definition fallbackDecision : RoutingDecision :=
  {| route := "Keying Dept";
     flags := [];
     reason := "Global Keyword Match";
     evidence := val (keywordEvidence "MASTER KEY");
     logs := ["> Initializing Routing Protocol...";
              "> Scanning content for flags...";
              "> MATCH FOUND: Global Keyword [MASTER KEY]";
              "> ROUTING: Directed to Special Handling (Keying Dept)"];
     decision_pageCount := 7 |}.

End Sample.

(** ** The manual editing of a member's counters *)

(** The white space that [parseInt] and [trim] skip, within ASCII: tab, line
    feed, vertical tab, form feed, carriage return and space. *)
Definition isWhiteSpace (c : ascii) : bool :=
  let n := nat_of_ascii c in
  ((9 <=? n)%nat && (n <=? 13)%nat) || (n =? 32)%nat.

Fixpoint trimStart (s : string) : string :=
  match s with
  | EmptyString => EmptyString
  | String c rest => if isWhiteSpace c then trimStart rest else s
  end.

(** The value of a character as a digit of the given radix, if it is one. *)
Definition digitValue (radix : Z) (c : ascii) : option Z :=
  let n := Z.of_nat (nat_of_ascii c) in
  let v :=
    if (48 <=? n) && (n <=? 57) then Some (n - 48)
    else if (97 <=? n) && (n <=? 122) then Some (n - 87)
    else if (65 <=? n) && (n <=? 90) then Some (n - 55)
    else None in
  match v with
  | Some d => if d <? radix then Some d else None
  | None => None
  end.

(** Reads the longest run of digits at the head of [s]; [acc] is [None] as
    long as no digit was read. *)
Fixpoint parseDigits (radix : Z) (s : string) (acc : option Z) : option Z :=
  match s with
  | EmptyString => acc
  | String c rest =>
      match digitValue radix c with
      | Some d =>
          parseDigits radix rest
            (Some match acc with
                  | Some a => a * radix + d
                  | None => d
                  end)
      | None => acc
      end
  end.

(** A leading minus or plus sign is taken off. *)
Definition stripSign (s : string) : Z * string :=
  match s with
  | String c rest =>
      if (c =? "-")%char then (-1, rest)
      else if (c =? "+")%char then (1, rest)
      else (1, s)
  | EmptyString => (1, s)
  end.

(** A leading 0x or 0X is taken off and selects radix 16. *)
Definition stripHexPrefix (s : string) : Z * string :=
  match s with
  | String c0 (String c1 rest) =>
      if (c0 =? "0")%char && ((c1 =? "x")%char || (c1 =? "X")%char)
      then (16, rest)
      else (10, s)
  | _ => (10, s)
  end.

(** [parseInt(value)] without a radix; [None] stands for [NaN]. *)
Definition parseInt (value : string) : option Z :=
  let '(sign, s1) := stripSign (trimStart value) in
  let '(radix, s2) := stripHexPrefix s1 in
  match parseDigits radix s2 None with
  | Some n => Some (sign * n)
  | None => None
  end.

(** [parseInt(value) || 0]. *)
Definition parseIntOrZero (value : string) : Z :=
  match parseInt value with
  | Some n => if n =? 0 then 0 else n
  | None => 0
  end.

(** The two keys [updateTeamStats] is called with. *)
Inductive StatField : Type :=
| cardsField : StatField
| totalPagesField : StatField.

(** [team.map(member => member.id === id
                 ? { ...member, [field]: parseInt(value) || 0 } : member)]. *)
Definition updateTeamStats (team : list TeamMember) (id0 : Z) (field : StatField)
           (value : string) : list TeamMember :=
  map (fun member =>
         if id member =? id0 then
           match field with
           | cardsField =>
               {| id := id member; name := name member; role := role member;
                  cards := parseIntOrZero value;
                  totalPages := totalPages member;
                  color := color member |}
           | totalPagesField =>
               {| id := id member; name := name member; role := role member;
                  cards := cards member;
                  totalPages := parseIntOrZero value;
                  color := color member |}
           end
         else member)
      team.

(** ** The call to the extraction service *)

Record Response : Type := {
  status : Z;
  responseText : js string
}.

(** What one [await fetch(...)] does: the promise rejects, or resolves to a
    response. *)
Inductive FetchResult : Type :=
| Rejected : FetchResult
| Resolved : Response -> FetchResult.

(** What [fetchWithBackoff] does to the outside, in order. *)
Inductive Effect : Type :=
| Fetched : nat -> Effect
| Slept : Z -> Effect.

(** The [while (attempt < maxAttempts)] loop. [fetch] gives the result of
    the call made at each attempt, [remaining] is [maxAttempts - attempt],
    [trace] what was done so far. A response whose status is not 429 is
    returned; a rejection is logged and, like a 429, followed by a sleep of
    [1000 * 2^attempt] milliseconds. After the loop the function throws. *)
Fixpoint backoffLoop (fetch : nat -> FetchResult) (remaining attempt : nat)
         (trace : list Effect) : outcome Response * list Effect :=
  match remaining with
  | O => (Throw "Error", trace)
  | S remaining' =>
      let retry :=
        backoffLoop fetch remaining' (S attempt)
          (trace ++ [Fetched attempt; Slept (1000 * 2 ^ Z.of_nat attempt)]) in
      match fetch attempt with
      | Resolved response =>
          if status response =? 429 then retry
          else (Return response, (trace ++ [Fetched attempt])%list)
      | Rejected => retry
      end
  end.

Definition fetchWithBackoff (fetch : nat -> FetchResult) (maxAttempts : Z)
  : outcome Response * list Effect :=
  backoffLoop fetch (Z.to_nat maxAttempts) 0 [].

(** The default of the [maxAttempts] parameter. *)
Definition defaultMaxAttempts : Z := 3.

(** An attempt after which the loop goes on: a rejection or a 429. *)
Definition retries (r : FetchResult) : bool :=
  match r with
  | Rejected => true
  | Resolved response => status response =? 429
  end.

(** What [k] failed attempts in a row, starting with attempt [from], do. *)
Definition backoffTrace (from k : nat) : list Effect :=
  flat_map (fun i => [Fetched i; Slept (1000 * 2 ^ Z.of_nat i)]) (seq from k).

(** The milliseconds slept in a trace, and the number of calls made. *)
Definition totalSlept (trace : list Effect) : Z :=
  fold_right (fun e acc => match e with
                           | Slept ms => ms + acc
                           | Fetched _ => acc
                           end) 0 trace.

Definition fetchCount (trace : list Effect) : nat :=
  fold_right (fun e acc => match e with
                           | Slept _ => acc
                           | Fetched _ => S acc
                           end) 0%nat trace.

Module SampleService.

(** A service that rejects the first call, answers 429 to the second and
    500 from then on. *)
Definition serverError : Response := {| status := 500; responseText := undefined |}.
Definition flakyService (attempt : nat) : FetchResult :=
  match attempt with
  | O => Rejected
  | S O => Resolved {| status := 429; responseText := undefined |}
  | _ => Resolved serverError
  end.

End SampleService.

(** ** The clean-up of the answer text *)

(** [s.replace(/pat/g, '')] for a literal, non-empty [pat]: matches are taken
    from left to right and do not overlap; [skip] counts the characters of the
    current match still to drop. *)
Fixpoint removeAllFrom (pat : string) (skip : nat) (s : string) : string :=
  match s with
  | EmptyString => EmptyString
  | String c rest =>
      match skip with
      | S k => removeAllFrom pat k rest
      | O =>
          if String.prefix pat s
          then removeAllFrom pat (String.length pat - 1) rest
          else String c (removeAllFrom pat 0 rest)
      end
  end.

Definition removeAll (pat s : string) : string := removeAllFrom pat 0 s.

Fixpoint trimEnd (s : string) : string :=
  match s with
  | EmptyString => EmptyString
  | String c rest =>
      match trimEnd rest with
      | EmptyString => if isWhiteSpace c then EmptyString else String c EmptyString
      | kept => String c kept
      end
  end.

Definition trim (s : string) : string := trimEnd (trimStart s).

Definition fence : string := "```".
Definition jsonFence : string := "```json".

(** [text.replace(/```json/g, '').replace(/```/g, '').trim()]. *)
Definition cleanText (text : string) : string :=
  trim (removeAll fence (removeAll jsonFence text)).

(** [if (!text) throw new Error("No data returned from AI")], then the
    clean-up. *)
Definition answerText (text : js string) : outcome string :=
  match text with
  | val t => if truthy t then Return (cleanText t) else Throw "Error"
  | _ => Throw "Error"
  end.

(** A text that may follow a decimal numeral without being read as part of
    it: nothing, or a text whose first character is neither a decimal digit
    nor the x of a hexadecimal prefix. *)
Definition endsNumber (tail : string) : Prop :=
  match tail with
  | EmptyString => True
  | String c _ =>
      digitValue 10 c = None /\ (c =? "x")%char = false /\ (c =? "X")%char = false
  end.

(** A text without any backtick, and a text made of white space only. *)
Definition noBacktick (s : string) : Prop :=
  forall c, In c (list_ascii_of_string s) -> (c =? "`")%char = false.

Definition blank (s : string) : Prop :=
  forall c, In c (list_ascii_of_string s) -> isWhiteSpace c = true.

(** A text in which no character survives the clean-up of prefixes. *)
Definition noise (s : string) : Prop :=
  forall c, In c (list_ascii_of_string s) -> keptChar c = false.

(** ** Totals over a roster *)

Definition totalCards (team : list TeamMember) : Z :=
  fold_right (fun m acc => cards m + acc) 0 team.

Definition totalLoad (team : list TeamMember) : Z :=
  fold_right (fun m acc => totalPages m + acc) 0 team.

(** The number of members called [n]. *)
Definition namesakes (n : string) (team : list TeamMember) : Z :=
  Z.of_nat (List.length (filter (fun m => (name m =? n)%string) team)).

(** ** Tactics for concrete inputs *)

(** Splits a membership in a literal list into one goal per element. *)
Ltac each_member H :=
  simpl in H;
  repeat (destruct H as [<-|H]);
  try contradiction.

(** Settles [noRestriction] on a literal order. *)
Ltac no_restriction :=
  split;
  [ let item := fresh "item" in
    let Hin := fresh "Hin" in
    intros item Hin; each_member Hin;
    first [ right; reflexivity | left; reflexivity ]
  | let kw := fresh "kw" in
    let Hin := fresh "Hin" in
    intros kw Hin; each_member Hin; reflexivity ].

(** Settles a statement about the roles or names of a literal roster. *)
Ltac each_role :=
  let m := fresh "m" in
  let Hin := fresh "Hin" in
  intros m Hin; each_member Hin; first [ reflexivity | discriminate ].

(** ** Lists and strings *)

Section ListFacts.

Variable A : Type.
Variable f : A -> bool.

Lemma find_first (pre post : list A) (x : A) :
  (forall y, In y pre -> f y = false) ->
  f x = true ->
  find f (pre ++ x :: post) = Some x.
Proof.
  intros Hpre Hx. induction pre as [|a pre IH]; simpl.
  - now rewrite Hx.
  - rewrite (Hpre a (or_introl eq_refl)). apply IH.
    intros y Hy. apply Hpre. now right.
Qed.

Lemma find_all_false (l : list A) :
  (forall y, In y l -> f y = false) -> find f l = None.
Proof.
  induction l as [|a l IH]; simpl; intros H; [reflexivity|].
  rewrite (H a (or_introl eq_refl)). apply IH.
  intros y Hy. apply H. now right.
Qed.

End ListFacts.

Lemma truthy_keyingPrefixes (p : string) :
  arrayIncludes keyingPrefixes p = true -> truthy p = true.
Proof.
  destruct p as [|c p]; [discriminate|reflexivity].
Qed.

Lemma truthy_keyingKeywords (kw : string) :
  In kw keyingKeywords -> truthy kw = true.
Proof.
  unfold keyingKeywords. simpl.
  intros H. repeat (destruct H as [<-|H]; [reflexivity|]). contradiction.
Qed.

Lemma badPrefix_truthy (item : LineItem) (bad : string) :
  badPrefix item = Some bad -> truthy bad = true.
Proof.
  unfold badPrefix. intros H. apply find_some in H.
  apply truthy_keyingPrefixes, H.
Qed.

Lemma badPrefix_restricted (item : LineItem) (bad : string) :
  badPrefix item = Some bad ->
  In bad keyingPrefixes /\ In bad (cleanPrefixList item).
Proof.
  unfold badPrefix. intros H. apply find_some in H. destruct H as [Hin Hk].
  split; [|exact Hin].
  unfold arrayIncludes in Hk. apply existsb_exists in Hk.
  destruct Hk as [x [Hx Heq]]. apply String.eqb_eq in Heq. now subst.
Qed.

(** ** The line-item scan *)

Lemma lineItemLoop_passedOver (items : list LineItem) (st : Locals) :
  (forall item, In item items -> passedOver item) ->
  lineItemLoop items st = st.
Proof.
  induction items as [|item rest IH]; simpl; intros H; [reflexivity|].
  assert (Hrest : lineItemLoop rest st = st).
  { apply IH. intros x Hx. apply H. now right. }
  destruct (H item (or_introl eq_refl)) as [Hfp|Hbad].
  - now rewrite Hfp.
  - rewrite Hbad. now destruct (falsePositive item).
Qed.

Lemma lineItemLoop_skip (pre post : list LineItem) (item : LineItem) (st : Locals) :
  passedOver item ->
  lineItemLoop (pre ++ item :: post) st = lineItemLoop (pre ++ post) st.
Proof.
  intros Hitem. induction pre as [|a pre IH]; simpl.
  - destruct Hitem as [Hfp|Hbad].
    + now rewrite Hfp.
    + rewrite Hbad. now destruct (falsePositive item).
  - rewrite IH. reflexivity.
Qed.

Lemma lineItemLoop_first (pre post : list LineItem) (item : LineItem)
      (bad : string) (st : Locals) :
  (forall x, In x pre -> passedOver x) ->
  qualifies item bad ->
  lineItemLoop (pre ++ item :: post) st = prefixMatched item bad st.
Proof.
  intros Hpre [Hfp Hbad]. induction pre as [|a pre IH].
  - simpl. rewrite Hfp, Hbad, (badPrefix_truthy _ _ Hbad). reflexivity.
  - change ((a :: pre) ++ item :: post)%list with ([] ++ a :: (pre ++ item :: post))%list.
    rewrite lineItemLoop_skip by (apply Hpre; now left).
    simpl. apply IH. intros x Hx. apply Hpre. now right.
Qed.

(** Some item of the list qualifies: the list splits at the first one. *)
Lemma first_qualifying (items : list LineItem) :
  (exists item bad, In item items /\ qualifies item bad) ->
  exists pre item bad post,
    items = (pre ++ item :: post)%list /\
    (forall x, In x pre -> passedOver x) /\
    qualifies item bad.
Proof.
  induction items as [|a rest IH]; intros [item [bad [Hin Hq]]]; [contradiction|].
  destruct (falsePositive a) eqn:Hfp.
  - destruct Hin as [->|Hin]; [destruct Hq as [Hq _]; congruence|].
    destruct IH as [pre [it [b [post [-> [Hpre Hit]]]]]]; [now exists item, bad|].
    exists (a :: pre), it, b, post. split; [reflexivity|]. split; [|exact Hit].
    intros x [<-|Hx]; [now left|now apply Hpre].
  - destruct (badPrefix a) as [b|] eqn:Hbad.
    + exists [], a, b, rest. repeat split; trivial. intros x [].
    + destruct Hin as [->|Hin]; [destruct Hq as [_ Hq]; congruence|].
      destruct IH as [pre [it [b [post [-> [Hpre Hit]]]]]]; [now exists item, bad|].
      exists (a :: pre), it, b, post. split; [reflexivity|]. split; [|exact Hit].
      intros x [<-|Hx]; [now right|now apply Hpre].
Qed.

Lemma checkLineItems_loop (data : ExtractionResult) (st : Locals) :
  checkLineItems data st = lineItemLoop (orEmpty (lineItems data)) st.
Proof.
  unfold checkLineItems. now destruct (lineItems data).
Qed.

Lemma checkVolume_isKeying (data : ExtractionResult) :
  l_isKeying (checkVolume data initLocals) = false.
Proof.
  unfold checkVolume.
  destruct (actualLineCount data >=? 10); [reflexivity|].
  now destruct ((actualLineCount data >? 0) && (actualLineCount data <=? 3)).
Qed.

(** ** The two detection phases together *)

Lemma detect_prefix (data : ExtractionResult) (pre post : list LineItem)
      (item : LineItem) (bad : string) :
  orEmpty (lineItems data) = (pre ++ item :: post)%list ->
  (forall x, In x pre -> passedOver x) ->
  qualifies item bad ->
  detect data = prefixMatched item bad (checkVolume data initLocals).
Proof.
  intros Hitems Hpre Hq. unfold detect.
  rewrite checkLineItems_loop, Hitems, (lineItemLoop_first _ _ _ _ _ Hpre Hq).
  reflexivity.
Qed.

Lemma detect_keyword (data : ExtractionResult) (kw : string) :
  noPrefixMatch data ->
  foundKeyword data = Some kw ->
  detect data =
    {| l_logs := l_logs (checkVolume data initLocals) ++
                 ["> MATCH FOUND: Global Keyword [" ++ kw ++ "]"];
       l_route := l_route (checkVolume data initLocals);
       l_flags := l_flags (checkVolume data initLocals);
       l_reason := "Global Keyword Match";
       l_evidence := val (keywordEvidence kw);
       l_isKeying := true |}.
Proof.
  intros Hno Hkw. unfold detect.
  rewrite checkLineItems_loop, (lineItemLoop_passedOver _ _ Hno).
  unfold checkKeywords. rewrite checkVolume_isKeying, Hkw.
  apply find_some in Hkw. now rewrite (truthy_keyingKeywords _ (proj1 Hkw)).
Qed.

Lemma detect_nothing (data : ExtractionResult) :
  noRestriction data -> detect data = checkVolume data initLocals.
Proof.
  intros [Hno Hkw]. unfold detect.
  rewrite checkLineItems_loop, (lineItemLoop_passedOver _ _ Hno).
  unfold checkKeywords, foundKeyword.
  rewrite checkVolume_isKeying, find_all_false; [reflexivity|exact Hkw].
Qed.

Lemma mentions_found (data : ExtractionResult) (kw : string) :
  mentions data kw ->
  exists found, foundKeyword data = Some found /\ mentions data found.
Proof.
  intros [Hin Hinc]. unfold foundKeyword.
  destruct (find (fun k => includes k (globalText data)) keyingKeywords) as [found|] eqn:Hf.
  - exists found. split; [reflexivity|]. apply find_some in Hf. exact Hf.
  - apply find_none with (x := kw) in Hf; [congruence|exact Hin].
Qed.

Lemma detect_restricted (data : ExtractionResult) :
  restrictionFound data -> l_isKeying (detect data) = true.
Proof.
  intros [Hitem|[kw Hkw]].
  - destruct (first_qualifying _ Hitem) as [pre [item [bad [post [Hsplit [Hpre Hq]]]]]].
    now rewrite (detect_prefix data _ _ _ _ Hsplit Hpre Hq).
  - unfold detect, checkKeywords.
    destruct (l_isKeying (checkLineItems data (checkVolume data initLocals))) eqn:Hk;
      [exact Hk|].
    destruct (mentions_found _ _ Hkw) as [found [Hf [Hin _]]].
    now rewrite Hf, (truthy_keyingKeywords _ Hin).
Qed.

Lemma determineRouting_detect (team : list TeamMember) (data : ExtractionResult) :
  determineRouting team data =
    match assign team (detect data) with
    | Throw e => Throw e
    | Return st =>
        Return {| route := l_route st; flags := l_flags st; reason := l_reason st;
                  evidence := l_evidence st; logs := l_logs st;
                  decision_pageCount := orNum (pageCount data) 1 |}
    end.
Proof. reflexivity. Qed.

(** ** Substrings of the search text *)

Lemma prefix_app (k a b : string) :
  String.prefix k a = true -> String.prefix k (a ++ b) = true.
Proof.
  revert a. induction k as [|c k IH]; intros a H; [now destruct (a ++ b)|].
  destruct a as [|d a]; [discriminate|]. simpl in *.
  destruct (ascii_dec c d); [now apply IH|discriminate].
Qed.

Lemma includes_cons (k : string) (d : ascii) (a : string) :
  includes k (String d a) = String.prefix k (String d a) || includes k a.
Proof. reflexivity. Qed.

Lemma includes_app_l (k a b : string) :
  includes k a = true -> includes k (a ++ b) = true.
Proof.
  induction a as [|d a IH]; intros H.
  - destruct k; [now destruct b|discriminate].
  - rewrite includes_cons in H. apply orb_true_iff in H.
    change (String d a ++ b) with (String d (a ++ b)). rewrite includes_cons.
    destruct H as [H|H].
    + change (String d (a ++ b)) with (String d a ++ b).
      now rewrite (prefix_app _ _ b H).
    + rewrite (IH H). apply orb_true_r.
Qed.

Lemma includes_app_r (k a b : string) :
  includes k b = true -> includes k (a ++ b) = true.
Proof.
  intros H. induction a as [|d a IH]; [exact H|].
  change (String d a ++ b) with (String d (a ++ b)).
  rewrite includes_cons, IH. apply orb_true_r.
Qed.

Lemma includes_concat (k sep x : string) (l : list string) :
  In x l -> includes k x = true -> includes k (String.concat sep l) = true.
Proof.
  intros Hin Hk. induction l as [|y l IH]; [contradiction|].
  destruct Hin as [->|Hin].
  - destruct l as [|z l]; [exact Hk|].
    cbn [String.concat]. now apply includes_app_l.
  - destruct l as [|z l]; [contradiction|].
    cbn [String.concat]. apply includes_app_r, includes_app_r, IH, Hin.
Qed.

Lemma toUpperCase_app (a b : string) :
  toUpperCase (a ++ b) = toUpperCase a ++ toUpperCase b.
Proof.
  induction a as [|c a IH]; simpl; [reflexivity|now rewrite IH].
Qed.

Lemma toUpperCase_concat (sep : string) (l : list string) :
  toUpperCase (String.concat sep l) =
  String.concat (toUpperCase sep) (map toUpperCase l).
Proof.
  induction l as [|x l IH]; [reflexivity|].
  destruct l as [|y l]; [reflexivity|].
  cbn [String.concat map] in *.
  now rewrite !toUpperCase_app, IH.
Qed.

(** A keyword found in the upper-cased text of one search field is found in
    the whole search text. *)
Lemma field_mentions (data : ExtractionResult) (x : js string) (s kw : string) :
  In x (safeSearchFields data) ->
  x = val s ->
  includes kw (toUpperCase s) = true ->
  includes kw (globalText data) = true.
Proof.
  intros Hin -> Hk. unfold globalText, join.
  rewrite toUpperCase_concat.
  apply includes_concat with (x := toUpperCase s); [|exact Hk].
  apply in_map. change s with (joinElem (val s)). now apply in_map.
Qed.

Lemma keyword_in_fields (data : ExtractionResult) (w : string) :
  In w (orEmpty (routingKeywords data)) -> In (val w) (safeSearchFields data).
Proof.
  intros H. unfold safeSearchFields. apply in_or_app. left. now apply in_map.
Qed.

Lemma desc_in_fields (data : ExtractionResult) (p : Page) (i : PageItem) :
  In p (orEmpty (pages data)) -> In i (orEmpty (itemsOnPage p)) ->
  In (desc i) (safeSearchFields data).
Proof.
  intros Hp Hi. unfold safeSearchFields.
  apply in_or_app. right. apply in_or_app. right.
  apply in_flat_map. exists p. split; [exact Hp|now apply in_map].
Qed.

Lemma summary_in_fields (data : ExtractionResult) (p : Page) :
  In p (orEmpty (pages data)) -> In (summary p) (safeSearchFields data).
Proof.
  intros H. unfold safeSearchFields.
  apply in_or_app. right. apply in_or_app. left. now apply in_map.
Qed.

(** ** The balancer's sort *)

Lemma insertRep_In (x y : TeamMember) (l : list TeamMember) :
  In y (insertRep x l) -> y = x \/ In y l.
Proof.
  induction l as [|z l IH]; simpl.
  - intros [<-|[]]. now left.
  - destruct (totalPages z - totalPages x <? 0); simpl.
    + intros [<-|H]; [right; now left|].
      destruct (IH H) as [->|Hl]; [now left|right; now right].
    + intros [<-|H]; [now left|now right].
Qed.

Lemma sortByPages_In (y : TeamMember) (l : list TeamMember) :
  In y (sortByPages l) -> In y l.
Proof.
  induction l as [|x l IH]; simpl; [trivial|].
  intros H. apply insertRep_In in H. destruct H as [->|H]; [now left|right; auto].
Qed.

(** The sort puts first the earliest member of least load. *)
Lemma sortByPages_head (pre post : list TeamMember) (rep : TeamMember) :
  (forall m, In m pre -> totalPages rep < totalPages m) ->
  (forall m, In m post -> totalPages rep <= totalPages m) ->
  hd_error (sortByPages (pre ++ rep :: post)) = Some rep.
Proof.
  intros Hpre Hpost. induction pre as [|a pre IH]; simpl.
  - destruct (sortByPages post) as [|y s] eqn:Hs; [reflexivity|].
    simpl.
    assert (Hy : totalPages rep <= totalPages y).
    { apply Hpost, sortByPages_In. rewrite Hs. now left. }
    destruct (totalPages y - totalPages rep <? 0) eqn:Hlt; [|reflexivity].
    apply Z.ltb_lt in Hlt. lia.
  - assert (Hhd : hd_error (sortByPages (pre ++ rep :: post)) = Some rep).
    { apply IH. intros m Hm. apply Hpre. now right. }
    destruct (sortByPages (pre ++ rep :: post)) as [|y s]; [discriminate|].
    simpl in Hhd. injection Hhd as ->. simpl.
    assert (Ha : totalPages rep < totalPages a) by (apply Hpre; now left).
    destruct (totalPages rep - totalPages a <? 0) eqn:Hlt; [reflexivity|].
    apply Z.ltb_ge in Hlt. lia.
Qed.

(** Every non-empty pool splits at its earliest member of least load. *)
Lemma least_loaded_split (l : list TeamMember) :
  l <> [] ->
  exists pre rep post,
    l = (pre ++ rep :: post)%list /\
    (forall m, In m pre -> totalPages rep < totalPages m) /\
    (forall m, In m post -> totalPages rep <= totalPages m).
Proof.
  induction l as [|a l IH]; intros Hne; [congruence|].
  destruct l as [|b l].
  - exists [], a, []. repeat split; intros m [].
  - destruct IH as [pre [rep [post [Heq [Hpre Hpost]]]]]; [discriminate|].
    destruct (Z_le_gt_dec (totalPages a) (totalPages rep)) as [Hle|Hgt].
    + exists [], a, (b :: l). split; [reflexivity|]. split; [intros m []|].
      intros m Hm. rewrite Heq in Hm. apply in_app_or in Hm.
      destruct Hm as [Hm|[<-|Hm]].
      * specialize (Hpre m Hm). lia.
      * exact Hle.
      * specialize (Hpost m Hm). lia.
    + exists (a :: pre), rep, post. rewrite Heq. split; [reflexivity|].
      split; [|exact Hpost].
      intros m [<-|Hm]; [lia|now apply Hpre].
Qed.

Lemma oeReps_none (team : list TeamMember) :
  (forall m, In m team -> role m <> "Order Entry") -> oeReps team = [].
Proof.
  unfold oeReps. induction team as [|m team IH]; intros H; [reflexivity|].
  simpl. destruct (String.eqb_spec (role m) "Order Entry") as [Heq|_].
  - exfalso. exact (H m (or_introl eq_refl) Heq).
  - apply IH. intros x Hx. apply H. now right.
Qed.

Lemma oeReps_In (team : list TeamMember) (m : TeamMember) :
  In m (oeReps team) <-> In m team /\ role m = "Order Entry".
Proof.
  unfold oeReps. rewrite filter_In. now rewrite String.eqb_eq.
Qed.

(** ** What later steps leave untouched *)

Lemma lineItemLoop_flags (items : list LineItem) (st : Locals) :
  l_flags (lineItemLoop items st) = l_flags st.
Proof.
  induction items as [|item rest IH]; simpl; [reflexivity|].
  destruct (falsePositive item); [exact IH|].
  destruct (badPrefix item) as [bad|]; [|exact IH].
  destruct (truthy bad); [reflexivity|exact IH].
Qed.

Lemma detect_flags (data : ExtractionResult) :
  l_flags (detect data) = l_flags (checkVolume data initLocals).
Proof.
  unfold detect, checkKeywords.
  destruct (l_isKeying _).
  - now rewrite checkLineItems_loop, lineItemLoop_flags.
  - destruct (foundKeyword data) as [kw|]; [destruct (truthy kw)|];
      simpl; now rewrite checkLineItems_loop, lineItemLoop_flags.
Qed.

Lemma assign_flags (team : list TeamMember) (st st' : Locals) :
  assign team st = Return st' -> l_flags st' = l_flags st.
Proof.
  unfold assign. destruct (l_isKeying st).
  - intros H. injection H as <-. reflexivity.
  - destruct (targetRep team); [|discriminate].
    intros H. injection H as <-. reflexivity.
Qed.

Lemma determineRouting_flags (team : list TeamMember) (data : ExtractionResult)
      (d : RoutingDecision) :
  determineRouting team data = Return d ->
  flags d = l_flags (checkVolume data initLocals).
Proof.
  rewrite determineRouting_detect.
  destruct (assign team (detect data)) as [st|e] eqn:Ha; [|discriminate].
  intros H. injection H as <-. simpl.
  now rewrite (assign_flags _ _ _ Ha), detect_flags.
Qed.

Lemma orNum_one_nonzero (x : js Z) : orNum x 1 <> 0.
Proof.
  destruct x as [| |n]; simpl; try discriminate.
  destruct (Z.eqb_spec n 0); [discriminate|assumption].
Qed.

Lemma orNum_idem (x : js Z) : orNum (val (orNum x 1)) 1 = orNum x 1.
Proof.
  simpl. destruct (Z.eqb_spec (orNum x 1) 0) as [H|_]; [|reflexivity].
  now apply orNum_one_nonzero in H.
Qed.

Lemma determineRouting_pageCount (team : list TeamMember) (data : ExtractionResult)
      (d : RoutingDecision) :
  determineRouting team data = Return d ->
  decision_pageCount d = orNum (pageCount data) 1.
Proof.
  rewrite determineRouting_detect.
  destruct (assign team (detect data)); [|discriminate].
  intros H. injection H as <-. reflexivity.
Qed.

(** On a match the engine returns, whatever the roster. *)
Lemma determineRouting_keying (team : list TeamMember) (data : ExtractionResult) :
  l_isKeying (detect data) = true ->
  determineRouting team data =
    Return {| route := specialistRoute team;
              flags := l_flags (detect data);
              reason := l_reason (detect data);
              evidence := l_evidence (detect data);
              logs := l_logs (detect data) ++
                      ["> ROUTING: Directed to Special Handling (" ++ specialistRoute team ++ ")"];
              decision_pageCount := orNum (pageCount data) 1 |}.
Proof.
  intros Hk. rewrite determineRouting_detect. unfold assign. rewrite Hk.
  reflexivity.
Qed.

(** Without a match the outcome is decided by the head of the sorted pool. *)
Lemma determineRouting_balanced (team : list TeamMember) (data : ExtractionResult) :
  noRestriction data ->
  determineRouting team data =
    match targetRep team with
    | None => Throw "TypeError"
    | Some rep =>
        Return {| route := name rep;
                  flags := l_flags (checkVolume data initLocals);
                  reason := "Lowest Page Load (" ++ numberToString (totalPages rep) ++ "pgs)";
                  evidence := null;
                  logs := l_logs (checkVolume data initLocals) ++
                          ["> No restrictions found.";
                           "> Calculating workload balance...";
                           "> ASSIGNMENT: " ++ name rep ++ " (Load: " ++
                             numberToString (totalPages rep) ++ ")"];
                  decision_pageCount := orNum (pageCount data) 1 |}
    end.
Proof.
  intros Hno. rewrite determineRouting_detect, (detect_nothing _ Hno).
  unfold assign. rewrite checkVolume_isKeying.
  destruct (targetRep team) as [rep|]; [|reflexivity].
  simpl. f_equal. f_equal.
  unfold checkVolume.
  destruct (actualLineCount data >=? 10); [reflexivity|].
  now destruct ((actualLineCount data >? 0) && (actualLineCount data <=? 3)).
Qed.

(** * The claims *)

(** ** C1: the balancer on an empty pool *)

(** C1, as the code has it. When no restriction is found and no roster member
    has the role "Order Entry", the engine fails: reading the name of the
    undefined head of the empty sorted pool throws a TypeError. No decision is
    returned and no operator is assigned by default. *)
Theorem C1_empty_pool_throws (team : list TeamMember) (data : ExtractionResult) :
  noRestriction data ->
  (forall m, In m team -> role m <> "Order Entry") ->
  determineRouting team data = Throw "TypeError".
Proof.
  intros Hno Hroles.
  rewrite (determineRouting_balanced team data Hno).
  unfold targetRep. now rewrite (oeReps_none team Hroles).
Qed.

Lemma C1_empty_pool_throws_witness :
  noRestriction Sample.plainOrder /\
  (forall m, In m Sample.rosterNoGeneralist -> role m <> "Order Entry") /\
  determineRouting Sample.rosterNoGeneralist Sample.plainOrder = Throw "TypeError".
Proof.
  assert (Hno : noRestriction Sample.plainOrder) by no_restriction.
  assert (Hroles : forall m, In m Sample.rosterNoGeneralist -> role m <> "Order Entry")
    by each_role.
  split; [exact Hno|]. split; [exact Hroles|].
  exact (C1_empty_pool_throws _ _ Hno Hroles).
Defined.

(** C1, as the specification words it, fails: on a roster without a
    generalist and an unrestricted order the error is not an
    EmptyPoolError. *)
Lemma C1_not_EmptyPoolError :
  noRestriction Sample.plainOrder /\
  (forall m, In m Sample.rosterNoGeneralist -> role m <> "Order Entry") /\
  determineRouting Sample.rosterNoGeneralist Sample.plainOrder <> Throw "EmptyPoolError".
Proof.
  split; [no_restriction|]. split; [each_role|].
  vm_compute. discriminate.
Qed.

(** ** C2: the prefix normaliser *)

Lemma upperChar_not_lower (c : ascii) : isLower c = false -> upperChar c = c.
Proof.
  unfold isLower, upperChar. now intros ->.
Qed.

(** C2, as the code has it. The normaliser applied to each entry of
    [prefixes] returns the token with every character outside 0-9 and A-Z
    removed. Letters are not folded to upper case: a lower-case letter is
    removed with the rest, so "al" becomes the empty token while "AL" stays
    "AL". On tokens without lower-case letters the result is the one the
    specification describes. *)
Theorem C2_cleanPrefix_strips (p : string) :
  list_ascii_of_string (cleanPrefix p) = filter keptChar (list_ascii_of_string p) /\
  ((forall c, In c (list_ascii_of_string p) -> isLower c = false) ->
   cleanPrefix p = specNormalize p) /\
  (forall item, cleanPrefixList item = map cleanPrefix (orEmpty (prefixes item))) /\
  cleanPrefix "al" = EmptyString /\
  cleanPrefix "AL" = "AL".
Proof.
  split; [|split; [|split; [reflexivity|split; reflexivity]]].
  - induction p as [|c p IH]; simpl; [reflexivity|].
    destruct (keptChar c); simpl; now rewrite IH.
  - unfold specNormalize. induction p as [|c p IH]; intros Hlow; [reflexivity|].
    simpl. rewrite (upperChar_not_lower c) by (apply Hlow; now left).
    rewrite <- IH by (intros d Hd; apply Hlow; now right).
    reflexivity.
Qed.

Lemma C2_cleanPrefix_strips_witness :
  (forall c, In c (list_ascii_of_string "5-9 AL") -> isLower c = false) /\
  cleanPrefix "5-9 AL" = specNormalize "5-9 AL" /\
  cleanPrefix "5-9 AL" = "59AL".
Proof.
  assert (Hlow : forall c, In c (list_ascii_of_string "5-9 AL") -> isLower c = false).
  { intros c Hin. each_member Hin; reflexivity. }
  split; [exact Hlow|]. split; [|reflexivity].
  exact (proj1 (proj2 (C2_cleanPrefix_strips "5-9 AL")) Hlow).
Defined.

(** C2, as the specification words it, fails: the lower-case token "al" is
    not normalised to "AL". *)
Lemma C2_lower_case_dropped :
  specNormalize "al" = "AL" /\
  cleanPrefix "al" <> specNormalize "al" /\
  cleanPrefix "al" <> "AL".
Proof.
  split; [reflexivity|]. split; vm_compute; discriminate.
Qed.

(** ** C4: the volume flag *)

Lemma checkVolume_flags (data : ExtractionResult) :
  l_flags (checkVolume data initLocals) =
    if actualLineCount data >=? 10 then ["10+ LINES"]
    else if (actualLineCount data >? 0) && (actualLineCount data <=? 3)
         then ["CHECKERED FLAG"]
         else [].
Proof.
  unfold checkVolume.
  destruct (actualLineCount data >=? 10); [reflexivity|].
  now destruct ((actualLineCount data >? 0) && (actualLineCount data <=? 3)).
Qed.

(** C4, as the code has it. The flags of a decision are the volume flags,
    computed from [totalLineCount] when it is present and not zero, and from
    the number of line items otherwise (a count of zero is treated like an
    absent one). A count of 10 gives exactly "10+ LINES", a count of 3 exactly
    "CHECKERED FLAG", a count of 4 no flag; a [totalLineCount] of 0 gives no
    flag when there are no line items, and in general the flag of the number
    of line items. *)
Theorem C4_volume_flag (data : ExtractionResult) :
  (forall team d, determineRouting team data = Return d ->
                  flags d = l_flags (checkVolume data initLocals)) /\
  (forall n, totalLineCount data = val n -> n <> 0 -> actualLineCount data = n) /\
  (totalLineCount data = undefined \/ totalLineCount data = null \/
   totalLineCount data = val 0 ->
   actualLineCount data = Z.of_nat (List.length (orEmpty (lineItems data)))) /\
  (totalLineCount data = val 10 ->
   l_flags (checkVolume data initLocals) = ["10+ LINES"]) /\
  (totalLineCount data = val 3 ->
   l_flags (checkVolume data initLocals) = ["CHECKERED FLAG"]) /\
  (totalLineCount data = val 4 ->
   l_flags (checkVolume data initLocals) = []) /\
  (totalLineCount data = val 0 -> orEmpty (lineItems data) = [] ->
   l_flags (checkVolume data initLocals) = []) /\
  (10 <= actualLineCount data ->
   l_flags (checkVolume data initLocals) = ["10+ LINES"]) /\
  (0 < actualLineCount data <= 3 ->
   l_flags (checkVolume data initLocals) = ["CHECKERED FLAG"]) /\
  (actualLineCount data <= 0 \/ 4 <= actualLineCount data <= 9 ->
   l_flags (checkVolume data initLocals) = []).
Proof.
  repeat split.
  - intros team d. apply determineRouting_flags.
  - intros n Hn Hnz. unfold actualLineCount. rewrite Hn.
    destruct (Z.eqb_spec n 0); [contradiction|reflexivity].
  - unfold actualLineCount. intros [ H | [ H | H ] ]; rewrite H; reflexivity.
  - intros H. rewrite checkVolume_flags. unfold actualLineCount. now rewrite H.
  - intros H. rewrite checkVolume_flags. unfold actualLineCount. now rewrite H.
  - intros H. rewrite checkVolume_flags. unfold actualLineCount. now rewrite H.
  - intros H Hl. rewrite checkVolume_flags. unfold actualLineCount. now rewrite H, Hl.
  - intros H. rewrite checkVolume_flags.
    destruct (actualLineCount data >=? 10) eqn:E; [reflexivity|].
    rewrite Z.geb_leb in E. apply Z.leb_gt in E. lia.
  - intros H. rewrite checkVolume_flags.
    destruct (actualLineCount data >=? 10) eqn:E.
    + rewrite Z.geb_leb in E. apply Z.leb_le in E. lia.
    + destruct (actualLineCount data >? 0) eqn:E1; simpl.
      * destruct (actualLineCount data <=? 3) eqn:E2; [reflexivity|].
        apply Z.leb_gt in E2. lia.
      * rewrite Z.gtb_ltb in E1. apply Z.ltb_ge in E1. lia.
  - intros H. rewrite checkVolume_flags.
    destruct (actualLineCount data >=? 10) eqn:E.
    + rewrite Z.geb_leb in E. apply Z.leb_le in E. lia.
    + destruct (actualLineCount data >? 0) eqn:E1; simpl; [|reflexivity].
      destruct (actualLineCount data <=? 3) eqn:E2; [|reflexivity].
      rewrite Z.gtb_ltb in E1. apply Z.ltb_lt in E1. apply Z.leb_le in E2. lia.
Qed.

Lemma C4_volume_flag_witness :
  totalLineCount Sample.mixedOrder = val 3 /\
  l_flags (checkVolume Sample.mixedOrder initLocals) = ["CHECKERED FLAG"] /\
  (forall d, determineRouting INITIAL_TEAM Sample.mixedOrder = Return d ->
             flags d = ["CHECKERED FLAG"]).
Proof.
  assert (Hcount : totalLineCount Sample.mixedOrder = val 3) by reflexivity.
  destruct (C4_volume_flag Sample.mixedOrder) as [Hd [_ [_ [_ [H3 _]]]]].
  split; [exact Hcount|]. split; [exact (H3 Hcount)|].
  intros d Hret. rewrite (Hd INITIAL_TEAM d Hret). exact (H3 Hcount).
Defined.

(** C4, as the specification words it, fails: with [totalLineCount] equal to
    0 and one extracted line the decision carries "CHECKERED FLAG". *)
Lemma C4_zero_count_flagged :
  totalLineCount Sample.zeroCountOrder = val 0 /\
  exists d, determineRouting INITIAL_TEAM Sample.zeroCountOrder = Return d /\
            flags d = ["CHECKERED FLAG"].
Proof.
  split; [reflexivity|].
  eexists. split; [vm_compute; reflexivity|reflexivity].
Qed.

(** ** C3: first match wins *)

(** The text of the evidence block, written out: the line number (N/A when
    missing or empty), the page (a question mark when missing or zero), the
    part number and the prefix, one per line. *)
Lemma prefixEvidence_text (item : LineItem) (bad : string) :
  prefixEvidence item bad =
    "LINE DETECTED:" ++ String (ascii_of_nat 10) EmptyString ++
    "Line #: " ++
    match lineNumber item with
    | val (String c s) => String c s
    | _ => "N/A"
    end ++ String (ascii_of_nat 10) EmptyString ++
    "Page: " ++
    match pageNumber item with
    | val n => if n =? 0 then "?" else numberToString n
    | _ => "?"
    end ++ String (ascii_of_nat 10) EmptyString ++
    "Part: " ++
    match partNumber item with
    | undefined => "undefined"
    | null => "null"
    | val s => s
    end ++ String (ascii_of_nat 10) EmptyString ++
    "Prefix: [" ++ bad ++ "]".
Proof.
  unfold prefixEvidence, orStr, pageOrUnknown, showStr, truthy, nl.
  destruct (lineNumber item) as [| |[|c s]]; reflexivity.
Qed.

(** C3. The line items are scanned in order and before any keyword: when the
    items before [item] are all passed over and [item] qualifies with prefix
    [bad], the decision is the specialist one for [item], with the reason
    naming [bad] and the evidence citing that line: its text is the heading,
    then the line number, the page, the part number and the prefix [bad] of
    [item], one per line. Nothing after the match is looked at: the items
    behind it, the routing keywords and the pages may be replaced by any
    others without changing route, reason or evidence. *)
Theorem C3_first_match_wins (team : list TeamMember) (data : ExtractionResult)
        (pre post : list LineItem) (item : LineItem) (bad : string) :
  lineItems data = val (pre ++ item :: post)%list ->
  (forall x, In x pre -> passedOver x) ->
  qualifies item bad ->
  determineRouting team data =
    Return {| route := specialistRoute team;
              flags := l_flags (checkVolume data initLocals);
              reason := "Restricted Prefix '" ++ bad ++ "'";
              evidence :=
                val ("LINE DETECTED:" ++ String (ascii_of_nat 10) EmptyString ++
                     "Line #: " ++
                     match lineNumber item with
                     | val (String c s) => String c s
                     | _ => "N/A"
                     end ++ String (ascii_of_nat 10) EmptyString ++
                     "Page: " ++
                     match pageNumber item with
                     | val n => if n =? 0 then "?" else numberToString n
                     | _ => "?"
                     end ++ String (ascii_of_nat 10) EmptyString ++
                     "Part: " ++
                     match partNumber item with
                     | undefined => "undefined"
                     | null => "null"
                     | val s => s
                     end ++ String (ascii_of_nat 10) EmptyString ++
                     "Prefix: [" ++ bad ++ "]");
              logs := l_logs (checkVolume data initLocals) ++
                      ["> MATCH FOUND: Keying Prefix [" ++ bad ++ "] on Page " ++
                         showNum (pageNumber item);
                       "> ROUTING: Directed to Special Handling (" ++
                         specialistRoute team ++ ")"];
              decision_pageCount := orNum (pageCount data) 1 |} /\
  (forall ln pg pn,
      lineNumber item = val ln -> ln <> EmptyString ->
      pageNumber item = val pg -> pg <> 0 ->
      partNumber item = val pn ->
      exists d,
        determineRouting team data = Return d /\
        reason d = "Restricted Prefix '" ++ bad ++ "'" /\
        evidence d =
          val ("LINE DETECTED:" ++ String (ascii_of_nat 10) EmptyString ++
               "Line #: " ++ ln ++ String (ascii_of_nat 10) EmptyString ++
               "Page: " ++ numberToString pg ++ String (ascii_of_nat 10) EmptyString ++
               "Part: " ++ pn ++ String (ascii_of_nat 10) EmptyString ++
               "Prefix: [" ++ bad ++ "]")) /\
  forall data' post',
    lineItems data' = val (pre ++ item :: post')%list ->
    exists d d',
      determineRouting team data = Return d /\
      determineRouting team data' = Return d' /\
      route d' = route d /\ reason d' = reason d /\ evidence d' = evidence d.
Proof.
  intros Hitems Hpre Hq.
  assert (Hdec : forall dat pst,
             lineItems dat = val (pre ++ item :: pst)%list ->
             determineRouting team dat =
               Return {| route := specialistRoute team;
                         flags := l_flags (checkVolume dat initLocals);
                         reason := "Restricted Prefix '" ++ bad ++ "'";
                         evidence := val (prefixEvidence item bad);
                         logs := l_logs (checkVolume dat initLocals) ++
                                 ["> MATCH FOUND: Keying Prefix [" ++ bad ++ "] on Page " ++
                                    showNum (pageNumber item);
                                  "> ROUTING: Directed to Special Handling (" ++
                                    specialistRoute team ++ ")"];
                         decision_pageCount := orNum (pageCount dat) 1 |}).
  { intros dat pst Hdat.
    assert (Hdet : detect dat = prefixMatched item bad (checkVolume dat initLocals)).
    { apply detect_prefix with (pre := pre) (post := pst); trivial.
      now rewrite Hdat. }
    rewrite determineRouting_keying by (now rewrite Hdet).
    rewrite Hdet. simpl. now rewrite <- app_assoc. }
  split; [|split].
  - rewrite <- prefixEvidence_text. now apply Hdec with (pst := post).
  - intros ln pg pn Hln Hne Hpg Hnz Hpn.
    eexists. split; [apply Hdec with (pst := post); exact Hitems|].
    split; [reflexivity|]. cbn [evidence].
    rewrite prefixEvidence_text, Hln, Hpg, Hpn.
    destruct ln as [|c s]; [contradiction|].
    destruct (Z.eqb_spec pg 0); [contradiction|reflexivity].
  - intros data' post' Hitems'.
    eexists. eexists.
    split; [apply Hdec with (pst := post); exact Hitems|].
    split; [apply Hdec with (pst := post'); exact Hitems'|].
    repeat split.
Qed.

Lemma C3_first_match_wins_witness :
  lineItems Sample.mixedOrder = val ([Sample.line1] ++ Sample.line2 :: [Sample.line3])%list /\
  (forall x, In x [Sample.line1] -> passedOver x) /\
  qualifies Sample.line2 "59" /\
  exists d, determineRouting INITIAL_TEAM Sample.mixedOrder = Return d /\
            route d = "Maureen Thompson" /\
            reason d = "Restricted Prefix '59'" /\
            evidence d =
              val ("LINE DETECTED:" ++ String (ascii_of_nat 10) EmptyString ++
                   "Line #: 2" ++ String (ascii_of_nat 10) EmptyString ++
                   "Page: 1" ++ String (ascii_of_nat 10) EmptyString ++
                   "Part: 8204" ++ String (ascii_of_nat 10) EmptyString ++
                   "Prefix: [59]").
Proof.
  assert (H1 : lineItems Sample.mixedOrder =
               val ([Sample.line1] ++ Sample.line2 :: [Sample.line3])%list) by reflexivity.
  assert (H2 : forall x, In x [Sample.line1] -> passedOver x).
  { intros x Hin. each_member Hin. right. reflexivity. }
  assert (H3 : qualifies Sample.line2 "59") by (split; reflexivity).
  split; [exact H1|]. split; [exact H2|]. split; [exact H3|].
  eexists. split.
  - exact (proj1 (C3_first_match_wins INITIAL_TEAM Sample.mixedOrder
                    [Sample.line1] [Sample.line3] Sample.line2 "59" H1 H2 H3)).
  - repeat split.
Defined.

(** ** C8: suppression of the 31/AL collision *)

(** C8. A line item whose part number starts with "31" and whose cleaned
    prefixes contain "AL" is skipped by the scan, which goes on with the next
    item: the scan of a list is the scan of the list without that item. Alone
    in an order, such an item (part "3100-X" with prefix "AL" is one) leaves
    the scan without a match, and no decision for that order has a
    restricted-prefix reason. *)
Theorem C8_false_positive_skipped (item : LineItem) (pn : string) :
  partNumber item = val pn ->
  startsWith "31" pn = true ->
  arrayIncludes (cleanPrefixList item) "AL" = true ->
  falsePositive item = true /\
  (forall pre post st,
      lineItemLoop (pre ++ item :: post) st = lineItemLoop (pre ++ post) st) /\
  (forall data,
      lineItems data = val [item] ->
      l_isKeying (checkLineItems data (checkVolume data initLocals)) = false /\
      forall team d bad,
        determineRouting team data = Return d ->
        reason d <> "Restricted Prefix '" ++ bad ++ "'").
Proof.
  intros Hpn H31 HAL.
  assert (Hfp : falsePositive item = true).
  { unfold falsePositive. rewrite Hpn, H31, HAL.
    destruct pn; [discriminate|reflexivity]. }
  split; [exact Hfp|]. split.
  - intros pre post st. apply lineItemLoop_skip. now left.
  - intros data Hitems.
    assert (Hloop : checkLineItems data (checkVolume data initLocals) =
                    checkVolume data initLocals).
    { unfold checkLineItems. rewrite Hitems. simpl. now rewrite Hfp. }
    split; [rewrite Hloop; apply checkVolume_isKeying|].
    intros team d bad. rewrite determineRouting_detect.
    unfold detect. rewrite Hloop. unfold checkKeywords.
    rewrite checkVolume_isKeying.
    assert (Hvol : l_reason (checkVolume data initLocals) = "Standard Order").
    { unfold checkVolume.
      destruct (actualLineCount data >=? 10); [reflexivity|].
      now destruct ((actualLineCount data >? 0) && (actualLineCount data <=? 3)). }
    assert (Hvk := checkVolume_isKeying data).
    destruct (foundKeyword data) as [kw|]; [destruct (truthy kw)|];
      unfold assign; simpl; rewrite ?Hvk;
      try (intros H; injection H as <-; simpl; discriminate);
      (destruct (targetRep team); [|discriminate];
       intros H; injection H as <-; simpl; discriminate).
Qed.

Lemma C8_false_positive_skipped_witness :
  partNumber Sample.noisyLine = val "3100-X" /\
  startsWith "31" "3100-X" = true /\
  arrayIncludes (cleanPrefixList Sample.noisyLine) "AL" = true /\
  l_isKeying (checkLineItems Sample.noisyOrder (checkVolume Sample.noisyOrder initLocals)) = false /\
  lineItemLoop ([Sample.line1] ++ Sample.noisyLine :: [Sample.line2]) initLocals =
  lineItemLoop ([Sample.line1] ++ [Sample.line2]) initLocals.
Proof.
  assert (H1 : partNumber Sample.noisyLine = val "3100-X") by reflexivity.
  assert (H2 : startsWith "31" "3100-X" = true) by reflexivity.
  assert (H3 : arrayIncludes (cleanPrefixList Sample.noisyLine) "AL" = true) by reflexivity.
  destruct (C8_false_positive_skipped Sample.noisyLine "3100-X" H1 H2 H3) as [_ [Hskip Halone]].
  split; [exact H1|]. split; [exact H2|]. split; [exact H3|]. split.
  - exact (proj1 (Halone Sample.noisyOrder eq_refl)).
  - exact (Hskip [Sample.line1] [Sample.line2] initLocals).
Defined.

(** ** C7: the global keyword scan *)

Lemma find_split (A : Type) (f : A -> bool) (l : list A) (x : A) :
  find f l = Some x ->
  exists pre post,
    l = (pre ++ x :: post)%list /\ (forall y, In y pre -> f y = false) /\ f x = true.
Proof.
  induction l as [|a l IH]; simpl; [discriminate|].
  destruct (f a) eqn:Hfa.
  - intros H. injection H as ->. exists [], l. repeat split; trivial. intros y [].
  - intros H. destruct (IH H) as [pre [post [-> [Hpre Hx]]]].
    exists (a :: pre), post. repeat split; trivial.
    intros y [<-|Hy]; [exact Hfa|now apply Hpre].
Qed.

(** C7. The search text is the routing keywords, the page summaries and the
    item descriptions joined and folded to upper case, so a keyword that
    occurs, in any case, inside one page summary occurs in the search text.
    When no line item matched and some restricted keyword occurs in the search
    text, the engine returns the specialist decision with reason "Global
    Keyword Match"; its evidence quotes the matched keyword, which is the
    first keyword of the configured list that occurs in the text. *)
Theorem C7_global_keyword (team : list TeamMember) (data : ExtractionResult) :
  (forall p s k,
      In p (orEmpty (pages data)) -> summary p = val s ->
      includes k (toUpperCase s) = true ->
      includes k (globalText data) = true) /\
  (forall w k,
      In w (orEmpty (routingKeywords data)) ->
      includes k (toUpperCase w) = true ->
      includes k (globalText data) = true) /\
  (forall p i s k,
      In p (orEmpty (pages data)) -> In i (orEmpty (itemsOnPage p)) ->
      desc i = val s ->
      includes k (toUpperCase s) = true ->
      includes k (globalText data) = true) /\
  (forall kw,
      noPrefixMatch data ->
      In kw keyingKeywords ->
      includes kw (globalText data) = true ->
      exists found pre post,
        keyingKeywords = (pre ++ found :: post)%list /\
        (forall k, In k pre -> includes k (globalText data) = false) /\
        includes found (globalText data) = true /\
        includes found (keywordEvidence found) = true /\
        determineRouting team data =
          Return {| route := specialistRoute team;
                    flags := l_flags (checkVolume data initLocals);
                    reason := "Global Keyword Match";
                    evidence := val (keywordEvidence found);
                    logs := l_logs (checkVolume data initLocals) ++
                            ["> MATCH FOUND: Global Keyword [" ++ found ++ "]";
                             "> ROUTING: Directed to Special Handling (" ++
                               specialistRoute team ++ ")"];
                    decision_pageCount := orNum (pageCount data) 1 |}).
Proof.
  split; [|split; [|split]].
  - intros p s k Hp Hs Hk.
    apply field_mentions with (x := summary p) (s := s); trivial.
    now apply summary_in_fields.
  - intros w k Hw Hk.
    apply field_mentions with (x := val w) (s := w); trivial.
    now apply keyword_in_fields.
  - intros p i s k Hp Hi Hs Hk.
    apply field_mentions with (x := desc i) (s := s); trivial.
    now apply desc_in_fields with (p := p).
  - intros kw Hno Hin Hinc.
    destruct (mentions_found data kw (conj Hin Hinc)) as [found [Hf _]].
    destruct (find_split _ _ _ _ Hf) as [pre [post [Hsplit [Hpre Hfound]]]].
    exists found, pre, post.
    split; [exact Hsplit|]. split; [exact Hpre|]. split; [exact Hfound|].
    split.
    + unfold keywordEvidence.
      apply includes_app_r, includes_app_r, includes_app_l.
      clear. induction found as [|c f IH]; [reflexivity|].
      rewrite includes_cons. simpl.
      destruct (ascii_dec c c) as [_|Hne]; [|contradiction].
      clear IH. replace (prefix f f) with true; [reflexivity|].
      induction f as [|e f IH]; [reflexivity|]. simpl.
      destruct (ascii_dec e e) as [_|Hne]; [exact IH|contradiction].
    + rewrite determineRouting_keying by (now rewrite (detect_keyword data found Hno Hf)).
      rewrite (detect_keyword data found Hno Hf). simpl.
      now rewrite <- app_assoc.
Qed.

Lemma C7_global_keyword_witness :
  noPrefixMatch Sample.masterKeyOrder /\
  In "MASTER KEY" keyingKeywords /\
  includes "MASTER KEY" (toUpperCase "Needs Master keY system") = true /\
  includes "MASTER KEY" (globalText Sample.masterKeyOrder) = true /\
  exists found d,
    determineRouting INITIAL_TEAM Sample.masterKeyOrder = Return d /\
    reason d = "Global Keyword Match" /\
    evidence d = val (keywordEvidence found).
Proof.
  assert (Hno : noPrefixMatch Sample.masterKeyOrder).
  { intros item Hin. each_member Hin. right. reflexivity. }
  assert (Hin : In "MASTER KEY" keyingKeywords).
  { simpl. do 5 right. left. reflexivity. }
  assert (Hsum : includes "MASTER KEY" (toUpperCase "Needs Master keY system") = true)
    by reflexivity.
  destruct (C7_global_keyword INITIAL_TEAM Sample.masterKeyOrder)
    as [Hfield [_ [_ Hdec]]].
  assert (Hinc : includes "MASTER KEY" (globalText Sample.masterKeyOrder) = true).
  { apply (Hfield Sample.masterKeyPage "Needs Master keY system" "MASTER KEY").
    - simpl. left. reflexivity.
    - reflexivity.
    - exact Hsum. }
  split; [exact Hno|]. split; [exact Hin|]. split; [exact Hsum|]. split; [exact Hinc|].
  destruct (Hdec "MASTER KEY" Hno Hin Hinc) as [found [pre [post [_ [_ [_ [_ Hret]]]]]]].
  exists found. eexists. split; [exact Hret|]. split; reflexivity.
Defined.

(** ** C9: the specialist route *)

(** C9. When a restriction match is found the engine returns a decision and
    does not fail. Its route is the name of the first roster member whose role
    carries the Keying tag (the role text contains "Keying"), when there is
    one; when the roster has no such member the route is the fixed label
    "Keying Dept". *)
Theorem C9_specialist_or_fallback (team : list TeamMember) (data : ExtractionResult) :
  restrictionFound data ->
  exists d,
    determineRouting team data = Return d /\
    (forall pre rep post,
        team = (pre ++ rep :: post)%list ->
        (forall m, In m pre -> includes "Keying" (role m) = false) ->
        includes "Keying" (role rep) = true ->
        route d = name rep) /\
    ((exists m, In m team /\ includes "Keying" (role m) = true) ->
     exists rep, In rep team /\ includes "Keying" (role rep) = true /\
                 route d = name rep) /\
    ((forall m, In m team -> includes "Keying" (role m) = false) ->
     route d = "Keying Dept").
Proof.
  intros Hfound.
  rewrite (determineRouting_keying team data (detect_restricted data Hfound)).
  eexists. split; [reflexivity|]. simpl. unfold specialistRoute, keyingRep.
  split; [|split].
  - intros pre rep post -> Hpre Hrep.
    now rewrite (find_first _ (fun m => includes "Keying" (role m)) pre post rep Hpre Hrep).
  - intros [m [Hin Hm]].
    destruct (find (fun m0 => includes "Keying" (role m0)) team) as [rep|] eqn:Hf.
    + exists rep. apply find_some in Hf. destruct Hf as [Hrin Hrole].
      repeat split; trivial.
    + apply find_none with (x := m) in Hf; [|exact Hin]. simpl in Hf. congruence.
  - intros Hnone.
    now rewrite (find_all_false _ (fun m => includes "Keying" (role m)) team Hnone).
Qed.

Lemma C9_specialist_or_fallback_witness :
  restrictionFound Sample.mixedOrder /\
  (exists d, determineRouting INITIAL_TEAM Sample.mixedOrder = Return d /\
             route d = "Maureen Thompson") /\
  (exists d, determineRouting Sample.rosterABC Sample.mixedOrder = Return d /\
             route d = "Keying Dept").
Proof.
  assert (Hfound : restrictionFound Sample.mixedOrder).
  { left. exists Sample.line2, "59". split; [simpl; right; left; reflexivity|].
    split; reflexivity. }
  split; [exact Hfound|]. split.
  - destruct (C9_specialist_or_fallback INITIAL_TEAM Sample.mixedOrder Hfound)
      as [d [Hret [Hfirst _]]].
    exists d. split; [exact Hret|].
    apply (Hfirst (firstn 5 INITIAL_TEAM)
                  {| id := 3; name := "Maureen Thompson"; role := "Intl/Keying";
                     cards := 12; totalPages := 60; color := "#8b5cf6" |}
                  (skipn 6 INITIAL_TEAM)).
    + reflexivity.
    + each_role.
    + reflexivity.
  - destruct (C9_specialist_or_fallback Sample.rosterABC Sample.mixedOrder Hfound)
      as [d [Hret [_ [_ Hnone]]]].
    exists d. split; [exact Hret|]. apply Hnone. each_role.
Defined.

(** ** C6: the balanced path *)

(** C6. Without a restriction and with at least one "Order Entry" member, the
    engine returns a decision whose route is the member of least [totalPages]
    among the "Order Entry" members, the earliest in roster order among equal
    minima; the reason prints that member's [totalPages] as the roster given
    to the engine has it, that is before the update of this decision. On the
    roster A (30), B (10), C (10) the pick is B, the reason reports 10 pages,
    and the update then credits B. *)
Theorem C6_least_loaded (data : ExtractionResult) :
  noRestriction data ->
  (forall team,
      oeReps team <> [] ->
      exists pre rep post d,
        oeReps team = (pre ++ rep :: post)%list /\
        (forall m, In m pre -> totalPages rep < totalPages m) /\
        (forall m, In m post -> totalPages rep <= totalPages m) /\
        In rep team /\ role rep = "Order Entry" /\
        determineRouting team data = Return d /\
        route d = name rep /\
        reason d = "Lowest Page Load (" ++ numberToString (totalPages rep) ++ "pgs)") /\
  (exists d,
      determineRouting Sample.rosterABC data = Return d /\
      route d = "B" /\
      reason d = "Lowest Page Load (10pgs)" /\
      processOrder Sample.rosterABC Sample.rosterABC data =
        Return (d, [ Sample.member 1 "A" "Order Entry" 2 30;
                     Sample.member 2 "B" "Order Entry" (1 + 1)
                                   (10 + orNum (pageCount data) 1);
                     Sample.member 3 "C" "Order Entry" 4 10 ])).
Proof.
  intros Hno. split.
  - intros team Hne.
    destruct (least_loaded_split (oeReps team) Hne) as [pre [rep [post [Hsplit [Hpre Hpost]]]]].
    assert (Hin : In rep (oeReps team)).
    { rewrite Hsplit. apply in_or_app. right. now left. }
    apply oeReps_In in Hin. destruct Hin as [Hin Hrole].
    exists pre, rep, post. eexists.
    split; [exact Hsplit|]. split; [exact Hpre|]. split; [exact Hpost|].
    split; [exact Hin|]. split; [exact Hrole|].
    rewrite (determineRouting_balanced team data Hno).
    unfold targetRep. rewrite Hsplit, (sortByPages_head pre post rep Hpre Hpost).
    repeat split.
  - eexists. unfold processOrder.
    rewrite (determineRouting_balanced Sample.rosterABC data Hno).
    change (targetRep Sample.rosterABC)
      with (Some (Sample.member 2 "B" "Order Entry" 1 10)).
    split; [reflexivity|]. split; [reflexivity|]. split; [reflexivity|].
    f_equal. f_equal. unfold updateTeam, finalOrderPageCount.
    cbn -[Z.add orNum]. now rewrite orNum_idem.
Qed.

Lemma C6_least_loaded_witness :
  noRestriction Sample.plainOrder /\
  oeReps INITIAL_TEAM <> [] /\
  (exists d, determineRouting Sample.rosterABC Sample.plainOrder = Return d /\
             route d = "B") /\
  (exists rep d, In rep INITIAL_TEAM /\
                 determineRouting INITIAL_TEAM Sample.plainOrder = Return d /\
                 route d = name rep).
Proof.
  assert (Hno : noRestriction Sample.plainOrder) by no_restriction.
  assert (Hne : oeReps INITIAL_TEAM <> []) by discriminate.
  destruct (C6_least_loaded Sample.plainOrder Hno) as [Hgen [d [Hret [Hroute _]]]].
  split; [exact Hno|]. split; [exact Hne|]. split.
  - exists d. split; [exact Hret|exact Hroute].
  - destruct (Hgen INITIAL_TEAM Hne)
      as [pre [rep [post [d' [_ [_ [_ [Hin [_ [Hret' [Hroute' _]]]]]]]]]]].
    exists rep, d'. split; [exact Hin|]. split; [exact Hret'|exact Hroute'].
Defined.

(** ** C5: the roster update *)

Lemma updateTeam_nth (prevTeam : list TeamMember) (d : RoutingDecision) (i : nat) :
  nth_error (updateTeam prevTeam d) i =
    option_map
      (fun member =>
         if (name member =? route d)%string
         then credited member (orNum (finalOrderPageCount d) 1)
         else member)
      (nth_error prevTeam i).
Proof.
  unfold updateTeam. apply nth_error_map.
Qed.

(** C5. For every roster and every decision returned by the engine, the
    updated roster has the same members in the same positions, where a member
    whose name is the decision's route has [cards] increased by exactly 1 and
    [totalPages] increased by exactly the decision's page count, and every
    other member is unchanged. *)
Theorem C5_roster_update (team prevTeam : list TeamMember) (data : ExtractionResult)
        (d : RoutingDecision) :
  determineRouting team data = Return d ->
  processOrder team prevTeam data = Return (d, updateTeam prevTeam d) /\
  List.length (updateTeam prevTeam d) = List.length prevTeam /\
  forall i m,
    nth_error prevTeam i = Some m ->
    (name m = route d ->
     nth_error (updateTeam prevTeam d) i =
       Some {| id := id m; name := name m; role := role m;
               cards := cards m + 1;
               totalPages := totalPages m + decision_pageCount d;
               color := color m |}) /\
    (name m <> route d ->
     nth_error (updateTeam prevTeam d) i = Some m).
Proof.
  intros Hret.
  split; [unfold processOrder; now rewrite Hret|].
  split; [unfold updateTeam; apply length_map|].
  intros i m Hnth. rewrite updateTeam_nth, Hnth. simpl.
  split; intros Hname.
  - apply String.eqb_eq in Hname. rewrite Hname.
    unfold credited. simpl.
    assert (Hnz : decision_pageCount d <> 0).
    { rewrite (determineRouting_pageCount team data d Hret). apply orNum_one_nonzero. }
    destruct (Z.eqb_spec (decision_pageCount d) 0); [contradiction|reflexivity].
  - apply String.eqb_neq in Hname. now rewrite Hname.
Qed.

Lemma C5_roster_update_witness :
  determineRouting Sample.rosterABC Sample.masterKeyOrder = Return Sample.fallbackDecision /\
  (exists d, determineRouting Sample.rosterABC Sample.plainOrder = Return d /\
             updateTeam Sample.rosterABC d =
               [ Sample.member 1 "A" "Order Entry" 2 30;
                 Sample.member 2 "B" "Order Entry" 2 17;
                 Sample.member 3 "C" "Order Entry" 4 10 ]) /\
  List.length (updateTeam INITIAL_TEAM Sample.fallbackDecision) = List.length INITIAL_TEAM.
Proof.
  assert (Hret : determineRouting Sample.rosterABC Sample.masterKeyOrder =
                 Return Sample.fallbackDecision) by reflexivity.
  split; [exact Hret|]. split.
  - eexists. split; reflexivity.
  - exact (proj1 (proj2 (C5_roster_update Sample.rosterABC INITIAL_TEAM
                           Sample.masterKeyOrder Sample.fallbackDecision Hret))).
Defined.

(** ** C10: a route that names nobody *)

(** C10. When the decision's route is the name of no roster member, as with
    the label "Keying Dept" on a roster without specialist, the update returns
    the roster as it was: no member's [cards] or [totalPages] changes, and
    the update itself cannot fail. *)
Theorem C10_unknown_route_noop (prevTeam : list TeamMember) (d : RoutingDecision) :
  (forall m, In m prevTeam -> name m <> route d) ->
  updateTeam prevTeam d = prevTeam /\
  (forall team data,
      determineRouting team data = Return d ->
      processOrder team prevTeam data = Return (d, prevTeam)).
Proof.
  intros Hnames.
  assert (Hupd : updateTeam prevTeam d = prevTeam).
  { unfold updateTeam. induction prevTeam as [|m rest IH]; [reflexivity|].
    simpl. destruct (String.eqb_spec (name m) (route d)) as [Heq|_].
    - exfalso. exact (Hnames m (or_introl eq_refl) Heq).
    - f_equal. apply IH. intros x Hx. apply Hnames. now right. }
  split; [exact Hupd|].
  intros team data Hret. unfold processOrder. now rewrite Hret, Hupd.
Qed.

Lemma C10_unknown_route_noop_witness :
  (forall m, In m Sample.rosterABC -> name m <> route Sample.fallbackDecision) /\
  determineRouting Sample.rosterABC Sample.masterKeyOrder = Return Sample.fallbackDecision /\
  updateTeam Sample.rosterABC Sample.fallbackDecision = Sample.rosterABC /\
  processOrder Sample.rosterABC Sample.rosterABC Sample.masterKeyOrder =
    Return (Sample.fallbackDecision, Sample.rosterABC).
Proof.
  assert (Hnames : forall m, In m Sample.rosterABC -> name m <> route Sample.fallbackDecision)
    by each_role.
  assert (Hret : determineRouting Sample.rosterABC Sample.masterKeyOrder =
                 Return Sample.fallbackDecision) by reflexivity.
  destruct (C10_unknown_route_noop Sample.rosterABC Sample.fallbackDecision Hnames)
    as [Hupd Hproc].
  split; [exact Hnames|]. split; [exact Hret|]. split; [exact Hupd|].
  exact (Hproc Sample.rosterABC Sample.masterKeyOrder Hret).
Defined.

(** * Further properties of the component *)

(** ** The three kinds of decision *)

Lemma item_passedOver_or_qualifies (item : LineItem) :
  passedOver item \/ exists bad, qualifies item bad.
Proof.
  unfold passedOver, qualifies.
  destruct (falsePositive item); [now left; left|].
  destruct (badPrefix item) as [bad|]; [right; now exists bad|left; now right].
Qed.

Lemma items_passedOver_or_qualifying (items : list LineItem) :
  (forall item, In item items -> passedOver item) \/
  (exists item bad, In item items /\ qualifies item bad).
Proof.
  induction items as [|a rest IH]; [left; intros item []|].
  destruct (item_passedOver_or_qualifies a) as [Ha|[bad Ha]].
  - destruct IH as [IH|[item [bad [Hin Hq]]]].
    + left. intros item [<-|Hin]; [exact Ha|now apply IH].
    + right. exists item, bad. split; [now right|exact Hq].
  - right. exists a, bad. split; [now left|exact Ha].
Qed.

Lemma restriction_found_or_not (data : ExtractionResult) :
  restrictionFound data \/ noRestriction data.
Proof.
  destruct (items_passedOver_or_qualifying (orEmpty (lineItems data))) as [Hpass|Hq].
  - destruct (foundKeyword data) as [kw|] eqn:Hf.
    + left. right. exists kw. unfold foundKeyword in Hf. apply find_some in Hf. exact Hf.
    + right. split; [exact Hpass|].
      intros kw Hin. unfold foundKeyword in Hf.
      now apply find_none with (x := kw) in Hf.
  - left. left. exact Hq.
Qed.

Lemma restriction_exclusive (data : ExtractionResult) :
  restrictionFound data -> noRestriction data -> False.
Proof.
  intros [[item [bad [Hin [Hfp Hbad]]]]|[kw [Hin Hinc]]] [Hpass Hkw].
  - destruct (Hpass item Hin) as [H|H]; congruence.
  - rewrite (Hkw kw Hin) in Hinc. discriminate.
Qed.

Lemma determineRouting_prefix (team : list TeamMember) (data : ExtractionResult)
      (pre post : list LineItem) (item : LineItem) (bad : string) :
  orEmpty (lineItems data) = (pre ++ item :: post)%list ->
  (forall x, In x pre -> passedOver x) ->
  qualifies item bad ->
  determineRouting team data =
    Return {| route := specialistRoute team;
              flags := l_flags (checkVolume data initLocals);
              reason := "Restricted Prefix '" ++ bad ++ "'";
              evidence := val (prefixEvidence item bad);
              logs := l_logs (checkVolume data initLocals) ++
                      ["> MATCH FOUND: Keying Prefix [" ++ bad ++ "] on Page " ++
                         showNum (pageNumber item);
                       "> ROUTING: Directed to Special Handling (" ++
                         specialistRoute team ++ ")"];
              decision_pageCount := orNum (pageCount data) 1 |}.
Proof.
  intros Hsplit Hpre Hq.
  assert (Hdet := detect_prefix data pre post item bad Hsplit Hpre Hq).
  rewrite determineRouting_keying by (now rewrite Hdet).
  rewrite Hdet. simpl. now rewrite <- app_assoc.
Qed.

Lemma determineRouting_keyword (team : list TeamMember) (data : ExtractionResult)
      (kw : string) :
  noPrefixMatch data ->
  foundKeyword data = Some kw ->
  determineRouting team data =
    Return {| route := specialistRoute team;
              flags := l_flags (checkVolume data initLocals);
              reason := "Global Keyword Match";
              evidence := val (keywordEvidence kw);
              logs := l_logs (checkVolume data initLocals) ++
                      ["> MATCH FOUND: Global Keyword [" ++ kw ++ "]";
                       "> ROUTING: Directed to Special Handling (" ++
                         specialistRoute team ++ ")"];
              decision_pageCount := orNum (pageCount data) 1 |}.
Proof.
  intros Hno Hf.
  rewrite determineRouting_keying by (now rewrite (detect_keyword data kw Hno Hf)).
  rewrite (detect_keyword data kw Hno Hf). simpl. now rewrite <- app_assoc.
Qed.

(** The detection ends in exactly one of three ways. *)
Lemma detection_kinds (data : ExtractionResult) :
  (exists pre item bad post,
      orEmpty (lineItems data) = (pre ++ item :: post)%list /\
      (forall x, In x pre -> passedOver x) /\
      qualifies item bad) \/
  (noPrefixMatch data /\ exists kw, foundKeyword data = Some kw) \/
  noRestriction data.
Proof.
  destruct (items_passedOver_or_qualifying (orEmpty (lineItems data))) as [Hpass|Hq].
  - destruct (foundKeyword data) as [kw|] eqn:Hf.
    + right. left. split; [exact Hpass|now exists kw].
    + right. right. split; [exact Hpass|].
      intros kw Hin. unfold foundKeyword in Hf.
      now apply find_none with (x := kw) in Hf.
  - left. destruct (first_qualifying _ Hq) as [pre [item [bad [post H]]]].
    now exists pre, item, bad, post.
Qed.

Lemma sortByPages_nil (l : list TeamMember) : sortByPages l = [] -> l = [].
Proof.
  destruct l as [|x l]; [reflexivity|]. simpl.
  destruct (sortByPages l) as [|y s]; simpl; [discriminate|].
  destruct (totalPages y - totalPages x <? 0); discriminate.
Qed.

Lemma targetRep_none (team : list TeamMember) :
  targetRep team = None -> forall m, In m team -> role m <> "Order Entry".
Proof.
  unfold targetRep. intros H m Hin Hrole.
  destruct (sortByPages (oeReps team)) as [|y s] eqn:Hs; [|discriminate].
  apply sortByPages_nil in Hs.
  assert (Hm : In m (oeReps team)) by (apply oeReps_In; now split).
  rewrite Hs in Hm. contradiction.
Qed.

Lemma targetRep_some (team : list TeamMember) (rep : TeamMember) :
  targetRep team = Some rep -> In rep team /\ role rep = "Order Entry".
Proof.
  unfold targetRep. intros H. apply oeReps_In, sortByPages_In.
  destruct (sortByPages (oeReps team)) as [|y s]; [discriminate|].
  injection H as ->. now left.
Qed.

Lemma keyingRep_some (team : list TeamMember) (rep : TeamMember) :
  keyingRep team = Some rep -> In rep team /\ includes "Keying" (role rep) = true.
Proof.
  unfold keyingRep. intros H. now apply find_some in H.
Qed.

Lemma same_search_text (data data' : ExtractionResult) :
  routingKeywords data' = routingKeywords data ->
  pages data' = pages data ->
  globalText data' = globalText data /\ foundKeyword data' = foundKeyword data.
Proof.
  intros Hk Hp.
  assert (Ht : globalText data' = globalText data).
  { unfold globalText, safeSearchFields. now rewrite Hk, Hp. }
  split; [exact Ht|]. unfold foundKeyword. now rewrite Ht.
Qed.

Lemma checkVolume_logs (data : ExtractionResult) :
  l_logs (checkVolume data initLocals) =
    (["> Initializing Routing Protocol..."; "> Scanning content for flags..."] ++
     if actualLineCount data >=? 10
     then [("! ALERT: High Volume (" ++ numberToString (actualLineCount data) ++ " lines)")%string]
     else [])%list.
Proof.
  unfold checkVolume.
  destruct (actualLineCount data >=? 10); [reflexivity|].
  now destruct ((actualLineCount data >? 0) && (actualLineCount data <=? 3)).
Qed.

(** ** X1: the only way the engine fails *)

(** X1. On a well-formed extraction and roster, that is when every field that
    is present has the type the extraction schema gives it (the typed records
    of this file: texts, integers, arrays of line items and of pages), the
    engine throws in one situation only: no restriction is found and no
    roster member has the role "Order Entry". The error is then a TypeError,
    and in every other situation a decision is returned. Input that breaks
    the schema (a number where a prefix text is expected, a null line item)
    is outside this statement. *)
Theorem X1_only_failure (team : list TeamMember) (data : ExtractionResult) (e : string) :
  determineRouting team data = Throw e <->
  e = "TypeError" /\ noRestriction data /\
  forall m, In m team -> role m <> "Order Entry".
Proof.
  split.
  - destruct (detection_kinds data)
      as [[pre [item [bad [post [Hsplit [Hpre Hq]]]]]]|[[Hno [kw Hf]]|Hno]].
    + rewrite (determineRouting_prefix team data pre post item bad Hsplit Hpre Hq).
      discriminate.
    + rewrite (determineRouting_keyword team data kw Hno Hf). discriminate.
    + rewrite (determineRouting_balanced team data Hno).
      destruct (targetRep team) as [rep|] eqn:Ht; [discriminate|].
      intros H. injection H as <-.
      split; [reflexivity|]. split; [exact Hno|]. now apply targetRep_none.
  - intros [-> [Hno Hroles]].
    rewrite (determineRouting_balanced team data Hno).
    unfold targetRep. now rewrite (oeReps_none team Hroles).
Qed.

Lemma X1_only_failure_witness :
  determineRouting Sample.rosterNoGeneralist Sample.plainOrder = Throw "TypeError" /\
  (forall e, determineRouting Sample.rosterABC Sample.plainOrder <> Throw e).
Proof.
  split.
  - apply (proj2 (X1_only_failure Sample.rosterNoGeneralist Sample.plainOrder "TypeError")).
    split; [reflexivity|]. split; [no_restriction|each_role].
  - intros e He.
    apply (proj1 (X1_only_failure Sample.rosterABC Sample.plainOrder e)) in He.
    destruct He as [_ [_ Hroles]].
    apply (Hroles (Sample.member 1 "A" "Order Entry" 2 30)); [now left|reflexivity].
Defined.

(** ** X2: the counts do not route *)

(** X2. Route, reason and evidence, and whether the engine fails, are decided
    by the line items, the routing keywords and the pages alone: two
    extractions that agree on these three fields and differ in
    [totalLineCount], [pageCount] or [poNumber] are routed alike on the same
    roster. *)
Theorem X2_counts_do_not_route (team : list TeamMember) (data data' : ExtractionResult) :
  lineItems data' = lineItems data ->
  routingKeywords data' = routingKeywords data ->
  pages data' = pages data ->
  match determineRouting team data, determineRouting team data' with
  | Return d, Return d' =>
      route d' = route d /\ reason d' = reason d /\ evidence d' = evidence d
  | Throw e, Throw e' => e' = e
  | _, _ => False
  end.
Proof.
  intros Hitems Hkws Hpages.
  destruct (same_search_text data data' Hkws Hpages) as [Htext Hfound].
  destruct (detection_kinds data)
    as [[pre [item [bad [post [Hsplit [Hpre Hq]]]]]]|[[Hno [kw Hf]]|Hno]].
  - rewrite (determineRouting_prefix team data pre post item bad Hsplit Hpre Hq).
    rewrite <- Hitems in Hsplit.
    rewrite (determineRouting_prefix team data' pre post item bad Hsplit Hpre Hq).
    repeat split.
  - rewrite (determineRouting_keyword team data kw Hno Hf).
    assert (Hno' : noPrefixMatch data') by (unfold noPrefixMatch; now rewrite Hitems).
    rewrite <- Hfound in Hf.
    rewrite (determineRouting_keyword team data' kw Hno' Hf).
    repeat split.
  - assert (Hno' : noRestriction data').
    { destruct Hno as [Hpass Hkw]. split.
      - unfold noPrefixMatch. now rewrite Hitems.
      - now rewrite Htext. }
    rewrite (determineRouting_balanced team data Hno),
            (determineRouting_balanced team data' Hno').
    destruct (targetRep team); [repeat split|reflexivity].
Qed.

Lemma X2_counts_do_not_route_witness :
  exists d d',
    determineRouting INITIAL_TEAM Sample.zeroCountOrder = Return d /\
    determineRouting INITIAL_TEAM Sample.hugeCountOrder = Return d' /\
    route d' = route d /\ reason d' = reason d /\ evidence d' = evidence d /\
    flags d' <> flags d.
Proof.
  assert (H := X2_counts_do_not_route INITIAL_TEAM Sample.zeroCountOrder
                 Sample.hugeCountOrder eq_refl eq_refl eq_refl).
  destruct (determineRouting INITIAL_TEAM Sample.zeroCountOrder) as [d|e] eqn:Hd;
    [|discriminate Hd].
  destruct (determineRouting INITIAL_TEAM Sample.hugeCountOrder) as [d'|e'] eqn:Hd';
    [|discriminate Hd'].
  exists d, d'. destruct H as [H1 [H2 H3]].
  split; [reflexivity|]. split; [reflexivity|].
  split; [exact H1|]. split; [exact H2|]. split; [exact H3|].
  injection Hd as <-. injection Hd' as <-. discriminate.
Defined.

(** ** X3: what a decision reports *)

(** X3. A returned decision is of exactly one of three kinds. Its reason
    names a restricted prefix only when a line item of the order qualifies
    with that prefix, and the evidence is then the block of that item; its
    reason is "Global Keyword Match" only when no line item matched and the
    quoted keyword occurs in the search text; otherwise no restriction was
    found and the route is an "Order Entry" member of the roster. The
    evidence is null exactly when no restriction was found, and the initial
    reason "Standard Order" is never returned. *)
Theorem X3_decision_kinds (team : list TeamMember) (data : ExtractionResult)
        (d : RoutingDecision) :
  determineRouting team data = Return d ->
  reason d <> "Standard Order" /\
  (evidence d = null <-> noRestriction data) /\
  ((exists item bad,
       In item (orEmpty (lineItems data)) /\ qualifies item bad /\
       In bad keyingPrefixes /\
       reason d = "Restricted Prefix '" ++ bad ++ "'" /\
       evidence d = val (prefixEvidence item bad) /\
       route d = specialistRoute team) \/
   (noPrefixMatch data /\
    exists kw,
      mentions data kw /\
      reason d = "Global Keyword Match" /\
      evidence d = val (keywordEvidence kw) /\
      route d = specialistRoute team) \/
   (noRestriction data /\
    exists rep,
      In rep team /\ role rep = "Order Entry" /\
      route d = name rep /\
      reason d = "Lowest Page Load (" ++ numberToString (totalPages rep) ++ "pgs)" /\
      evidence d = null)).
Proof.
  destruct (detection_kinds data)
    as [[pre [item [bad [post [Hsplit [Hpre Hq]]]]]]|[[Hno [kw Hf]]|Hno]].
  - rewrite (determineRouting_prefix team data pre post item bad Hsplit Hpre Hq).
    intros H. injection H as <-. simpl.
    assert (Hin : In item (orEmpty (lineItems data))).
    { rewrite Hsplit. apply in_or_app. right. now left. }
    split; [discriminate|]. split.
    + split; [discriminate|]. intros Hnone. exfalso.
      apply (restriction_exclusive data); [|exact Hnone].
      left. now exists item, bad.
    + left. exists item, bad.
      destruct (badPrefix_restricted item bad (proj2 Hq)) as [Hbad _].
      repeat split; trivial; apply Hq.
  - rewrite (determineRouting_keyword team data kw Hno Hf).
    intros H. injection H as <-. simpl.
    assert (Hm : mentions data kw).
    { unfold foundKeyword in Hf. apply find_some in Hf. exact Hf. }
    split; [discriminate|]. split.
    + split; [discriminate|]. intros Hnone. exfalso.
      apply (restriction_exclusive data); [|exact Hnone].
      right. now exists kw.
    + right. left. split; [exact Hno|]. exists kw. repeat split; trivial; apply Hm.
  - rewrite (determineRouting_balanced team data Hno).
    destruct (targetRep team) as [rep|] eqn:Ht; [|discriminate].
    intros H. injection H as <-. simpl.
    destruct (targetRep_some team rep Ht) as [Hin Hrole].
    split; [discriminate|]. split; [now split|].
    right. right. split; [exact Hno|]. exists rep. repeat split; trivial.
Qed.

Lemma X3_decision_kinds_witness :
  exists d,
    determineRouting INITIAL_TEAM Sample.mixedOrder = Return d /\
    reason d <> "Standard Order" /\
    (evidence d = null <-> noRestriction Sample.mixedOrder).
Proof.
  destruct (determineRouting INITIAL_TEAM Sample.mixedOrder) as [d|e] eqn:Hd;
    [|discriminate Hd].
  exists d. split; [reflexivity|].
  destruct (X3_decision_kinds INITIAL_TEAM Sample.mixedOrder d Hd) as [H1 [H2 _]].
  split; [exact H1|exact H2].
Defined.

(** ** X4: who can be assigned *)

(** X4. The route of a returned decision is the name of a roster member whose
    role is "Order Entry" or contains "Keying", or it is the label "Keying
    Dept"; the label is returned only for a restricted order on a roster
    where no role contains "Keying". A restricted order is never balanced
    onto a generalist, and an unrestricted order goes to an "Order Entry"
    member whose [totalPages] is least among the "Order Entry" members. *)
Theorem X4_route_roles (team : list TeamMember) (data : ExtractionResult)
        (d : RoutingDecision) :
  determineRouting team data = Return d ->
  (restrictionFound data /\
   ((route d = "Keying Dept" /\
     forall m, In m team -> includes "Keying" (role m) = false) \/
    (exists m, In m team /\ includes "Keying" (role m) = true /\ route d = name m))) \/
  (noRestriction data /\
   exists m, In m team /\ role m = "Order Entry" /\ route d = name m /\
             forall m', In m' team -> role m' = "Order Entry" ->
                        totalPages m <= totalPages m').
Proof.
  intros Hret.
  assert (Hspec : (specialistRoute team = "Keying Dept" /\
                   forall m, In m team -> includes "Keying" (role m) = false) \/
                  (exists m, In m team /\ includes "Keying" (role m) = true /\
                             specialistRoute team = name m)).
  { unfold specialistRoute. destruct (keyingRep team) as [rep|] eqn:Hk.
    - right. exists rep. destruct (keyingRep_some team rep Hk). repeat split; trivial.
    - left. split; [reflexivity|]. intros m Hin. unfold keyingRep in Hk.
      now apply find_none with (x := m) in Hk. }
  destruct (detection_kinds data)
    as [[pre [item [bad [post [Hsplit [Hpre Hq]]]]]]|[[Hno [kw Hf]]|Hno]].
  - rewrite (determineRouting_prefix team data pre post item bad Hsplit Hpre Hq) in Hret.
    injection Hret as <-. simpl. left. split; [|exact Hspec].
    left. exists item, bad. split; [|exact Hq].
    rewrite Hsplit. apply in_or_app. right. now left.
  - rewrite (determineRouting_keyword team data kw Hno Hf) in Hret.
    injection Hret as <-. simpl. left. split; [|exact Hspec].
    right. exists kw. unfold foundKeyword in Hf. apply find_some in Hf. exact Hf.
  - rewrite (determineRouting_balanced team data Hno) in Hret.
    destruct (targetRep team) as [rep|] eqn:Ht; [|discriminate].
    injection Hret as <-. simpl. right. split; [exact Hno|].
    destruct (targetRep_some team rep Ht) as [Hin Hrole].
    exists rep. repeat split; trivial.
    intros m' Hin' Hrole'.
    assert (Hne : oeReps team <> []).
    { intros Hnil. assert (Hm : In m' (oeReps team)) by (apply oeReps_In; now split).
      rewrite Hnil in Hm. contradiction. }
    destruct (least_loaded_split (oeReps team) Hne) as [pre [r [post [Hsplit [Hpre Hpost]]]]].
    unfold targetRep in Ht.
    rewrite Hsplit, (sortByPages_head pre post r Hpre Hpost) in Ht.
    injection Ht as ->.
    assert (Hm : In m' (oeReps team)) by (apply oeReps_In; now split).
    rewrite Hsplit in Hm. apply in_app_or in Hm.
    destruct Hm as [Hm|[<-|Hm]].
    + specialize (Hpre m' Hm). lia.
    + lia.
    + now apply Hpost.
Qed.

Lemma X4_route_roles_witness :
  exists d m,
    determineRouting INITIAL_TEAM Sample.plainOrder = Return d /\
    In m INITIAL_TEAM /\ role m = "Order Entry" /\ route d = name m.
Proof.
  destruct (determineRouting INITIAL_TEAM Sample.plainOrder) as [d|e] eqn:Hd;
    [|discriminate Hd].
  exists d.
  destruct (X4_route_roles INITIAL_TEAM Sample.plainOrder d Hd)
    as [[Hfound _]|[_ [m [Hin [Hrole [Hroute _]]]]]].
  - exfalso. apply (restriction_exclusive Sample.plainOrder Hfound). no_restriction.
  - exists m. split; [reflexivity|]. split; [exact Hin|]. split; [exact Hrole|exact Hroute].
Defined.

(** ** X5: the shape of the trail *)

(** X5. The trail of a returned decision is made of the two fixed opening
    lines, then the high-volume alert exactly when the line count is 10 or
    more, then either a match line followed by the redirect line naming the
    route, or the two balancing lines followed by the assignment line naming
    the route. It has between four and six entries. *)
Theorem X5_trail_shape (team : list TeamMember) (data : ExtractionResult)
        (d : RoutingDecision) :
  determineRouting team data = Return d ->
  exists steps,
    logs d =
      (["> Initializing Routing Protocol..."; "> Scanning content for flags..."] ++
       (if actualLineCount data >=? 10
        then [("! ALERT: High Volume (" ++ numberToString (actualLineCount data) ++
               " lines)")%string]
        else []) ++ steps)%list /\
    ((exists found,
         steps = [found;
                  ("> ROUTING: Directed to Special Handling (" ++ route d ++ ")")%string] /\
         restrictionFound data) \/
     (exists load,
         steps = ["> No restrictions found.";
                  "> Calculating workload balance...";
                  ("> ASSIGNMENT: " ++ route d ++ " (Load: " ++ load ++ ")")%string] /\
         noRestriction data)) /\
    (4 <= List.length (logs d) <= 6)%nat.
Proof.
  intros Hret.
  assert (Hlen : forall steps : list string,
             (2 <= List.length steps <= 3)%nat ->
             (4 <= List.length
                     (["> Initializing Routing Protocol..."; "> Scanning content for flags..."] ++
                      (if actualLineCount data >=? 10
                       then [("! ALERT: High Volume (" ++
                              numberToString (actualLineCount data) ++ " lines)")%string]
                       else []) ++ steps)%list <= 6)%nat).
  { intros steps Hs. destruct (actualLineCount data >=? 10); simpl; lia. }
  destruct (detection_kinds data)
    as [[pre [item [bad [post [Hsplit [Hpre Hq]]]]]]|[[Hno [kw Hf]]|Hno]].
  - rewrite (determineRouting_prefix team data pre post item bad Hsplit Hpre Hq) in Hret.
    injection Hret as <-. simpl logs. simpl route.
    rewrite checkVolume_logs, <- app_assoc.
    eexists. split; [reflexivity|]. split.
    + left. eexists. split; [reflexivity|].
      left. exists item, bad. split; [|exact Hq].
      rewrite Hsplit. apply in_or_app. right. now left.
    + apply Hlen. simpl. lia.
  - rewrite (determineRouting_keyword team data kw Hno Hf) in Hret.
    injection Hret as <-. simpl logs. simpl route.
    rewrite checkVolume_logs, <- app_assoc.
    eexists. split; [reflexivity|]. split.
    + left. eexists. split; [reflexivity|].
      right. exists kw. unfold foundKeyword in Hf. apply find_some in Hf. exact Hf.
    + apply Hlen. simpl. lia.
  - rewrite (determineRouting_balanced team data Hno) in Hret.
    destruct (targetRep team) as [rep|]; [|discriminate].
    injection Hret as <-. simpl logs. simpl route.
    rewrite checkVolume_logs, <- app_assoc.
    eexists. split; [reflexivity|]. split.
    + right. eexists. split; [reflexivity|exact Hno].
    + apply Hlen. simpl. lia.
Qed.

Lemma X5_trail_shape_witness :
  exists d,
    determineRouting INITIAL_TEAM Sample.hugeCountOrder = Return d /\
    List.length (logs d) = 6%nat /\
    nth 2 (logs d) EmptyString = "! ALERT: High Volume (25 lines)".
Proof.
  destruct (determineRouting INITIAL_TEAM Sample.hugeCountOrder) as [d|e] eqn:Hd;
    [|discriminate Hd].
  exists d. split; [reflexivity|].
  destruct (X5_trail_shape INITIAL_TEAM Sample.hugeCountOrder d Hd) as [steps [Hlogs _]].
  injection Hd as <-. split; reflexivity.
Defined.

(** ** Roster updates that keep names and roles *)

Section KeepsNamesAndRoles.

Variable f : TeamMember -> TeamMember.
Hypothesis f_name : forall m, name (f m) = name m.
Hypothesis f_role : forall m, role (f m) = role m.

Lemma keyingRep_map (team : list TeamMember) :
  keyingRep (map f team) = option_map f (keyingRep team).
Proof.
  unfold keyingRep. induction team as [|m team IH]; [reflexivity|].
  simpl. rewrite f_role. now destruct (includes "Keying" (role m)).
Qed.

Lemma specialistRoute_map (team : list TeamMember) :
  specialistRoute (map f team) = specialistRoute team.
Proof.
  unfold specialistRoute. rewrite keyingRep_map.
  destruct (keyingRep team); simpl; [apply f_name|reflexivity].
Qed.

Lemma oeReps_map (team : list TeamMember) :
  oeReps (map f team) = map f (oeReps team).
Proof.
  unfold oeReps. induction team as [|m team IH]; [reflexivity|].
  simpl. rewrite f_role.
  destruct (role m =? "Order Entry")%string; simpl; now rewrite IH.
Qed.

Lemma determineRouting_map (team : list TeamMember) (data : ExtractionResult)
      (d1 : RoutingDecision) :
  determineRouting team data = Return d1 ->
  exists d2,
    determineRouting (map f team) data = Return d2 /\
    (restrictionFound data -> d2 = d1).
Proof.
  intros Hret.
  destruct (detection_kinds data)
    as [[pre [item [bad [post [Hsplit [Hpre Hq]]]]]]|[[Hno [kw Hf]]|Hno]].
  - rewrite (determineRouting_prefix team data pre post item bad Hsplit Hpre Hq) in Hret.
    rewrite (determineRouting_prefix (map f team) data pre post item bad Hsplit Hpre Hq).
    rewrite specialistRoute_map. injection Hret as <-.
    eexists. split; [reflexivity|trivial].
  - rewrite (determineRouting_keyword team data kw Hno Hf) in Hret.
    rewrite (determineRouting_keyword (map f team) data kw Hno Hf).
    rewrite specialistRoute_map. injection Hret as <-.
    eexists. split; [reflexivity|trivial].
  - rewrite (determineRouting_balanced team data Hno) in Hret.
    rewrite (determineRouting_balanced (map f team) data Hno).
    destruct (targetRep team) as [rep|] eqn:Ht; [|discriminate].
    destruct (targetRep (map f team)) as [rep'|] eqn:Ht'.
    + eexists. split; [reflexivity|].
      intros Hfound. exfalso. exact (restriction_exclusive data Hfound Hno).
    + exfalso. unfold targetRep in Ht, Ht'. rewrite oeReps_map in Ht'.
      destruct (sortByPages (map f (oeReps team))) as [|y s] eqn:Hs; [|discriminate].
      apply sortByPages_nil, map_eq_nil in Hs. rewrite Hs in Ht. discriminate.
Qed.

End KeepsNamesAndRoles.

Lemma updateTeam_as_map (team : list TeamMember) (d : RoutingDecision) :
  updateTeam team d =
    map (fun member =>
           if (name member =? route d)%string
           then credited member (orNum (finalOrderPageCount d) 1)
           else member)
        team.
Proof. reflexivity. Qed.

(** ** X6: what an update adds up to *)

Lemma updateTeam_totals (team : list TeamMember) (d : RoutingDecision) :
  totalCards (updateTeam team d) = totalCards team + namesakes (route d) team /\
  totalLoad (updateTeam team d) =
    totalLoad team + orNum (finalOrderPageCount d) 1 * namesakes (route d) team.
Proof.
  unfold namesakes. induction team as [|m team [IHc IHl]]; [split; simpl; lia|].
  change (updateTeam (m :: team) d)
    with ((if (name m =? route d)%string
           then credited m (orNum (finalOrderPageCount d) 1) else m)
          :: updateTeam team d).
  cbn [totalCards totalLoad fold_right filter].
  fold (totalCards (updateTeam team d)) (totalLoad (updateTeam team d))
       (totalCards team) (totalLoad team).
  rewrite IHc, IHl.
  destruct (name m =? route d)%string; cbn [credited cards totalPages List.length];
    rewrite ?Nat2Z.inj_succ; split; lia.
Qed.

Lemma no_namesake (n : string) (team : list TeamMember) :
  ~ In n (map name team) ->
  filter (fun m => (name m =? n)%string) team = [].
Proof.
  induction team as [|b team IH]; intros Hnotin; [reflexivity|].
  simpl. destruct (String.eqb_spec (name b) n) as [Hb|Hb].
  - exfalso. apply Hnotin. now left.
  - apply IH. intros Hin. apply Hnotin. now right.
Qed.

Lemma unique_name_once (n : string) (team : list TeamMember) :
  NoDup (map name team) ->
  (exists m, In m team /\ name m = n) ->
  namesakes n team = 1.
Proof.
  unfold namesakes. induction team as [|a team IH]; intros Hnd [m [Hin Hname]];
    [contradiction|].
  simpl in Hnd. apply NoDup_cons_iff in Hnd. destruct Hnd as [Hnotin Hnd].
  simpl. destruct (String.eqb_spec (name a) n) as [Ha|Ha].
  - rewrite Ha in Hnotin. now rewrite (no_namesake n team Hnotin).
  - apply IH; [exact Hnd|]. destruct Hin as [Heq|Hin]; [congruence|]. now exists m.
Qed.

(** X6. Applying a decision returned by the engine raises the sum of the
    [cards] of the roster by the number of members named like the route, and
    the sum of the [totalPages] by the decision's page count for each of them.
    When the names of the roster are distinct and the route is one of them,
    the roster gains exactly one card and exactly the page count of the
    decision; when the route names nobody both sums stay as they were. *)
Theorem X6_update_totals (team prevTeam : list TeamMember) (data : ExtractionResult)
        (d : RoutingDecision) :
  determineRouting team data = Return d ->
  totalCards (updateTeam prevTeam d) =
    totalCards prevTeam + namesakes (route d) prevTeam /\
  totalLoad (updateTeam prevTeam d) =
    totalLoad prevTeam + decision_pageCount d * namesakes (route d) prevTeam /\
  (NoDup (map name prevTeam) ->
   (exists m, In m prevTeam /\ name m = route d) ->
   totalCards (updateTeam prevTeam d) = totalCards prevTeam + 1 /\
   totalLoad (updateTeam prevTeam d) = totalLoad prevTeam + decision_pageCount d) /\
  ((forall m, In m prevTeam -> name m <> route d) ->
   totalCards (updateTeam prevTeam d) = totalCards prevTeam /\
   totalLoad (updateTeam prevTeam d) = totalLoad prevTeam).
Proof.
  intros Hret.
  destruct (updateTeam_totals prevTeam d) as [Hc Hl].
  assert (Hpc : orNum (finalOrderPageCount d) 1 = decision_pageCount d).
  { unfold finalOrderPageCount. rewrite (determineRouting_pageCount team data d Hret).
    apply orNum_idem. }
  rewrite Hpc in Hl.
  split; [exact Hc|]. split; [exact Hl|]. split.
  - intros Hnd Hex. rewrite Hc, Hl, (unique_name_once (route d) prevTeam Hnd Hex).
    split; lia.
  - intros Hnone.
    assert (Hzero : namesakes (route d) prevTeam = 0).
    { unfold namesakes. clear Hc Hl.
      induction prevTeam as [|a rest IH]; [reflexivity|].
      simpl. destruct (String.eqb_spec (name a) (route d)) as [Ha|_].
      - exfalso. exact (Hnone a (or_introl eq_refl) Ha).
      - apply IH. intros m Hm. apply Hnone. now right. }
    rewrite Hc, Hl, Hzero. split; lia.
Qed.

Lemma X6_update_totals_witness :
  exists d,
    determineRouting INITIAL_TEAM Sample.plainOrder = Return d /\
    NoDup (map name INITIAL_TEAM) /\
    (exists m, In m INITIAL_TEAM /\ name m = route d) /\
    totalCards (updateTeam INITIAL_TEAM d) = totalCards INITIAL_TEAM + 1 /\
    totalLoad (updateTeam INITIAL_TEAM d) = totalLoad INITIAL_TEAM + 7.
Proof.
  destruct (determineRouting INITIAL_TEAM Sample.plainOrder) as [d|e] eqn:Hd;
    [|discriminate Hd].
  assert (Hnd : NoDup (map name INITIAL_TEAM)).
  { simpl.
    repeat (apply NoDup_cons;
            [intros H; simpl in H;
             repeat (destruct H as [H|H]; [discriminate H|]); exact H|]).
    apply NoDup_nil. }
  assert (Hroute : route d = "Paulina Lobo") by (injection Hd as <-; reflexivity).
  assert (Hpc : decision_pageCount d = 7) by (injection Hd as <-; reflexivity).
  assert (Hex : exists m, In m INITIAL_TEAM /\ name m = route d).
  { exists {| id := 7; name := "Paulina Lobo"; role := "Order Entry"; cards := 0;
              totalPages := 0; color := "#84cc16" |}.
    split; [simpl; do 4 right; left; reflexivity|now rewrite Hroute]. }
  exists d. split; [reflexivity|]. split; [exact Hnd|]. split; [exact Hex|].
  destruct (X6_update_totals INITIAL_TEAM INITIAL_TEAM Sample.plainOrder d Hd)
    as [_ [_ [Hone _]]].
  rewrite <- Hpc. exact (Hone Hnd Hex).
Defined.

(** ** X7: an update never disables the engine *)

(** X7. The roster update leaves the id, name, role and colour of every
    member in place. Hence an order that the engine could route before the
    update can still be routed after it, and a restricted order gets the very
    same decision: the update never empties the pool of generalists nor
    moves the specialist. *)
Theorem X7_update_keeps_engine_alive (team : list TeamMember) (d : RoutingDecision) :
  map id (updateTeam team d) = map id team /\
  map name (updateTeam team d) = map name team /\
  map role (updateTeam team d) = map role team /\
  map color (updateTeam team d) = map color team /\
  forall data d1,
    determineRouting team data = Return d1 ->
    exists d2,
      determineRouting (updateTeam team d) data = Return d2 /\
      (restrictionFound data -> d2 = d1).
Proof.
  assert (Hfields : forall g : TeamMember -> string,
             (forall m k, g (credited m k) = g m) ->
             map g (updateTeam team d) = map g team).
  { intros g Hg. rewrite updateTeam_as_map, map_map. apply map_ext.
    intros m. destruct (name m =? route d)%string; [apply Hg|reflexivity]. }
  split.
  { rewrite updateTeam_as_map, map_map. apply map_ext.
    intros m. now destruct (name m =? route d)%string. }
  split; [now apply Hfields|]. split; [now apply Hfields|]. split; [now apply Hfields|].
  intros data d1 Hret. rewrite updateTeam_as_map.
  apply determineRouting_map; [| |exact Hret];
    intros m; now destruct (name m =? route d)%string.
Qed.

Lemma X7_update_keeps_engine_alive_witness :
  exists d1 d2,
    determineRouting INITIAL_TEAM Sample.mixedOrder = Return d1 /\
    determineRouting (updateTeam INITIAL_TEAM d1) Sample.mixedOrder = Return d2 /\
    d2 = d1.
Proof.
  destruct (determineRouting INITIAL_TEAM Sample.mixedOrder) as [d1|e] eqn:Hd;
    [|discriminate Hd].
  destruct (X7_update_keeps_engine_alive INITIAL_TEAM d1) as [_ [_ [_ [_ Halive]]]].
  destruct (Halive Sample.mixedOrder d1 Hd) as [d2 [Hret2 Hsame]].
  exists d1, d2. split; [reflexivity|]. split; [exact Hret2|].
  apply Hsame. left. exists Sample.line2, "59".
  split; [simpl; right; left; reflexivity|split; reflexivity].
Defined.

(** ** Reading back a printed number *)

Lemma parseDigits_digit (radix : Z) (c : ascii) (v : Z) (rest : string) (acc : option Z) :
  digitValue radix c = Some v ->
  parseDigits radix (String c rest) acc =
    parseDigits radix rest
      (Some match acc with
            | Some a => a * radix + v
            | None => v
            end).
Proof.
  intros H. cbn [parseDigits]. now rewrite H.
Qed.

Lemma parseDigits_stop (radix : Z) (tail : string) (acc : option Z) :
  match tail with
  | EmptyString => True
  | String c _ => digitValue radix c = None
  end ->
  parseDigits radix tail acc = acc.
Proof.
  destruct tail as [|c rest]; [reflexivity|].
  intros H. cbn [parseDigits]. now rewrite H.
Qed.

Lemma endsNumber_stop (tail : string) :
  endsNumber tail ->
  match tail with
  | EmptyString => True
  | String c _ => digitValue 10 c = None
  end.
Proof.
  destruct tail as [|c rest]; [trivial|]. now intros [H _].
Qed.

Lemma parseDigits_acc (d : Decimal.uint) :
  forall (acc : positive) (tail : string),
    endsNumber tail ->
    parseDigits 10 (NilEmpty.string_of_uint d ++ tail) (Some (Z.pos acc)) =
      Some (Z.pos (Pos.of_uint_acc d acc)).
Proof.
  induction d; intros acc tail Ht;
    try (cbn [NilEmpty.string_of_uint append Pos.of_uint_acc];
         erewrite parseDigits_digit by (vm_compute; reflexivity);
         rewrite <- (IHd _ tail Ht); do 2 f_equal; lia).
  cbn [NilEmpty.string_of_uint append Pos.of_uint_acc].
  apply parseDigits_stop, endsNumber_stop, Ht.
Qed.

Lemma parseDigits_zero (d : Decimal.uint) :
  forall tail : string,
    endsNumber tail ->
    parseDigits 10 (NilEmpty.string_of_uint d ++ tail) (Some 0) =
      Some (Z.of_N (Pos.of_uint d)).
Proof.
  induction d; intros tail Ht;
    try (cbn [NilEmpty.string_of_uint append Pos.of_uint Z.of_N];
         erewrite parseDigits_digit by (vm_compute; reflexivity);
         rewrite <- (parseDigits_acc _ _ tail Ht); reflexivity).
  - cbn [NilEmpty.string_of_uint append Pos.of_uint].
    apply parseDigits_stop, endsNumber_stop, Ht.
  - cbn [NilEmpty.string_of_uint append Pos.of_uint].
    erewrite parseDigits_digit by (vm_compute; reflexivity). now apply IHd.
Qed.

Lemma parseDigits_none (d : Decimal.uint) (tail : string) :
  d <> Decimal.Nil ->
  endsNumber tail ->
  parseDigits 10 (NilEmpty.string_of_uint d ++ tail) None =
    Some (Z.of_N (Pos.of_uint d)).
Proof.
  intros Hd Ht.
  destruct d; [congruence|..];
    try (cbn [NilEmpty.string_of_uint append Pos.of_uint Z.of_N];
         erewrite parseDigits_digit by (vm_compute; reflexivity);
         rewrite <- (parseDigits_acc _ _ tail Ht); reflexivity).
  cbn [NilEmpty.string_of_uint append Pos.of_uint].
  erewrite parseDigits_digit by (vm_compute; reflexivity).
  now apply parseDigits_zero.
Qed.

Lemma digits_head (d : Decimal.uint) (tail : string) :
  d <> Decimal.Nil ->
  trimStart (NilEmpty.string_of_uint d ++ tail) = NilEmpty.string_of_uint d ++ tail /\
  stripSign (NilEmpty.string_of_uint d ++ tail) = (1, NilEmpty.string_of_uint d ++ tail).
Proof.
  intros Hd. destruct d; [congruence|..]; split; reflexivity.
Qed.

Lemma not_digit_not_zero (c : ascii) :
  digitValue 10 c = None -> (c =? "0")%char = false.
Proof.
  intros H. destruct (Ascii.eqb_spec c "0") as [->|_]; [discriminate H|reflexivity].
Qed.

Lemma digits_no_hex (d : Decimal.uint) (tail : string) :
  endsNumber tail ->
  stripHexPrefix (NilEmpty.string_of_uint d ++ tail) =
    (10, NilEmpty.string_of_uint d ++ tail).
Proof.
  intros Ht.
  destruct d as [|d|d|d|d|d|d|d|d|d|d]; cbn [NilEmpty.string_of_uint append];
    try (unfold stripHexPrefix;
         destruct (NilEmpty.string_of_uint d ++ tail); reflexivity).
  - destruct tail as [|c [|c1 rest]]; try reflexivity.
    unfold stripHexPrefix. destruct Ht as [Hc _].
    now rewrite (not_digit_not_zero c Hc).
  - destruct d; cbn [NilEmpty.string_of_uint append]; try reflexivity.
    destruct tail as [|c rest]; [reflexivity|].
    destruct Ht as [_ [Hx HX]]. unfold stripHexPrefix. now rewrite Hx, HX.
Qed.

Lemma parseInt_digits (d : Decimal.uint) (tail : string) :
  d <> Decimal.Nil ->
  endsNumber tail ->
  parseInt (NilEmpty.string_of_uint d ++ tail) = Some (Z.of_N (Pos.of_uint d)) /\
  parseInt (String "-" (NilEmpty.string_of_uint d ++ tail)) =
    Some (- Z.of_N (Pos.of_uint d)).
Proof.
  intros Hd Ht. destruct (digits_head d tail Hd) as [Htrim Hsign].
  split; unfold parseInt.
  - rewrite Htrim, Hsign, (digits_no_hex d tail Ht), (parseDigits_none d tail Hd Ht).
    f_equal; lia.
  - change (trimStart (String "-" (NilEmpty.string_of_uint d ++ tail)))
      with (String "-" (NilEmpty.string_of_uint d ++ tail)).
    change (stripSign (String "-" (NilEmpty.string_of_uint d ++ tail)))
      with (-1, NilEmpty.string_of_uint d ++ tail).
    cbv beta iota.
    rewrite (digits_no_hex d tail Ht), (parseDigits_none d tail Hd Ht).
    f_equal; lia.
Qed.

Lemma parseInt_printed (n : Z) (tail : string) :
  endsNumber tail ->
  parseInt (numberToString n ++ tail) = Some n.
Proof.
  intros Ht. unfold numberToString.
  destruct n as [|p|p]; cbn [Z.to_int NilZero.string_of_int].
  - change (NilZero.string_of_uint Decimal.zero)
      with (NilEmpty.string_of_uint (Decimal.D0 Decimal.Nil)).
    now rewrite (proj1 (parseInt_digits (Decimal.D0 Decimal.Nil) tail
                          ltac:(discriminate) Ht)).
  - assert (Hnil := Unsigned.to_uint_nonnil p).
    replace (NilZero.string_of_uint (Pos.to_uint p))
      with (NilEmpty.string_of_uint (Pos.to_uint p))
      by (unfold NilZero.string_of_uint; destruct (Pos.to_uint p); congruence).
    rewrite (proj1 (parseInt_digits (Pos.to_uint p) tail Hnil Ht)).
    now rewrite Unsigned.of_to.
  - assert (Hnil := Unsigned.to_uint_nonnil p).
    replace (NilZero.string_of_uint (Pos.to_uint p))
      with (NilEmpty.string_of_uint (Pos.to_uint p))
      by (unfold NilZero.string_of_uint; destruct (Pos.to_uint p); congruence).
    cbn [append].
    rewrite (proj2 (parseInt_digits (Pos.to_uint p) tail Hnil Ht)).
    now rewrite Unsigned.of_to.
Qed.

Lemma parseIntOrZero_printed (n : Z) (tail : string) :
  endsNumber tail ->
  parseIntOrZero (numberToString n ++ tail) = n.
Proof.
  intros Ht. unfold parseIntOrZero. rewrite (parseInt_printed n tail Ht).
  destruct (Z.eqb_spec n 0); congruence.
Qed.

Lemma parseInt_not_a_number (value : string) :
  match snd (stripSign (trimStart value)) with
  | EmptyString => True
  | String c _ => digitValue 10 c = None
  end ->
  parseInt value = None.
Proof.
  unfold parseInt.
  destruct (stripSign (trimStart value)) as [sign s1]. cbn [snd].
  destruct s1 as [|c rest]; [reflexivity|].
  intros Hc.
  assert (Hhex : stripHexPrefix (String c rest) = (10, String c rest)).
  { unfold stripHexPrefix. destruct rest; [reflexivity|].
    now rewrite (not_digit_not_zero c Hc). }
  rewrite Hhex. cbn [parseDigits]. now rewrite Hc.
Qed.

(** The member as [updateTeamStats] rewrites it. *)
Lemma updateTeamStats_nth (team : list TeamMember) (id0 : Z) (field : StatField)
      (value : string) (i : nat) :
  nth_error (updateTeamStats team id0 field value) i =
    option_map
      (fun member =>
         if id member =? id0 then
           match field with
           | cardsField =>
               {| id := id member; name := name member; role := role member;
                  cards := parseIntOrZero value; totalPages := totalPages member;
                  color := color member |}
           | totalPagesField =>
               {| id := id member; name := name member; role := role member;
                  cards := cards member; totalPages := parseIntOrZero value;
                  color := color member |}
           end
         else member)
      (nth_error team i).
Proof.
  unfold updateTeamStats. apply nth_error_map.
Qed.

(** ** X8: editing one counter by hand *)

(** X8. [updateTeamStats] keeps the roster's length and order, returns every
    member with another id as it was, and in a member with the given id
    replaces the one named counter by the number read from the text, leaving
    id, name, role, colour and the other counter alone. Since names and roles
    stay, an order the engine could route before the edit can be routed
    after it, and a restricted order gets the same decision. *)
Theorem X8_updateTeamStats_frame (team : list TeamMember) (id0 : Z)
        (field : StatField) (value : string) :
  List.length (updateTeamStats team id0 field value) = List.length team /\
  (forall i m,
      nth_error team i = Some m -> id m <> id0 ->
      nth_error (updateTeamStats team id0 field value) i = Some m) /\
  (forall i m,
      nth_error team i = Some m -> id m = id0 ->
      nth_error (updateTeamStats team id0 field value) i =
        Some match field with
             | cardsField =>
                 {| id := id m; name := name m; role := role m;
                    cards := parseIntOrZero value; totalPages := totalPages m;
                    color := color m |}
             | totalPagesField =>
                 {| id := id m; name := name m; role := role m;
                    cards := cards m; totalPages := parseIntOrZero value;
                    color := color m |}
             end) /\
  (forall data d1,
      determineRouting team data = Return d1 ->
      exists d2,
        determineRouting (updateTeamStats team id0 field value) data = Return d2 /\
        (restrictionFound data -> d2 = d1)).
Proof.
  split; [unfold updateTeamStats; apply length_map|].
  split; [|split].
  - intros i m Hnth Hid. rewrite updateTeamStats_nth, Hnth. simpl.
    apply Z.eqb_neq in Hid. now rewrite Hid.
  - intros i m Hnth Hid. rewrite updateTeamStats_nth, Hnth. simpl.
    apply Z.eqb_eq in Hid. now rewrite Hid.
  - intros data d1 Hret. unfold updateTeamStats.
    apply determineRouting_map; [| |exact Hret];
      intros m; destruct (id m =? id0); try reflexivity; now destruct field.
Qed.

Lemma X8_updateTeamStats_frame_witness :
  nth_error (updateTeamStats Sample.rosterABC 2 totalPagesField "42") 1 =
    Some (Sample.member 2 "B" "Order Entry" 1 42) /\
  nth_error (updateTeamStats Sample.rosterABC 2 totalPagesField "42") 0 =
    Some (Sample.member 1 "A" "Order Entry" 2 30).
Proof.
  destruct (X8_updateTeamStats_frame Sample.rosterABC 2 totalPagesField "42")
    as [_ [Hother [Hsame _]]].
  split.
  - exact (Hsame 1%nat (Sample.member 2 "B" "Order Entry" 1 10) eq_refl eq_refl).
  - apply (Hother 0%nat (Sample.member 1 "A" "Order Entry" 2 30) eq_refl).
    discriminate.
Defined.

(** ** X9: edits compose *)

(** X9. Of two edits of the same counter of the same id the later one wins;
    an edit of [cards] and an edit of [totalPages] can be made in either
    order, whatever the ids. *)
Theorem X9_edits_compose (team : list TeamMember) (i j : Z) (v1 v2 : string)
        (field : StatField) :
  updateTeamStats (updateTeamStats team i field v1) i field v2 =
    updateTeamStats team i field v2 /\
  updateTeamStats (updateTeamStats team i cardsField v1) j totalPagesField v2 =
    updateTeamStats (updateTeamStats team j totalPagesField v2) i cardsField v1.
Proof.
  unfold updateTeamStats. rewrite !map_map. split; apply map_ext; intros m.
  - destruct (id m =? i) eqn:Hi; [|now rewrite Hi].
    destruct field; cbn [id]; now rewrite Hi.
  - destruct (id m =? i) eqn:Hi; destruct (id m =? j) eqn:Hj;
      cbn [id]; rewrite ?Hi, ?Hj; reflexivity.
Qed.

(** ** X10: what a typed text sets the counter to *)

(** X10. For an integer within the safe range of a JavaScript number, the
    text that the engine prints for it is read back as that integer, also
    when it is followed by text that does not continue the numeral (a decimal
    point and a fraction, an exponent, letters): the rest is dropped, not
    rounded. A text that, after leading blanks and an optional sign, does not
    start with a decimal digit (the empty text is one) sets the counter to 0.
    So typing the displayed value of [totalPages] back leaves the roster as
    it is. *)
Theorem X10_typed_value (n : Z) (tail junk : string) (team : list TeamMember) (id0 : Z) :
  Z.abs n <= 9007199254740991 ->
  endsNumber tail ->
  match snd (stripSign (trimStart junk)) with
  | EmptyString => True
  | String c _ => digitValue 10 c = None
  end ->
  parseIntOrZero (numberToString n) = n /\
  parseIntOrZero (numberToString n ++ tail) = n /\
  parseIntOrZero junk = 0 /\
  ((forall m, In m team -> id m = id0 -> totalPages m = n) ->
   updateTeamStats team id0 totalPagesField (numberToString n ++ tail) = team).
Proof.
  intros _ Ht Hjunk.
  assert (Hexact : parseIntOrZero (numberToString n) = n).
  { rewrite <- (parseIntOrZero_printed n EmptyString I) at 2.
    f_equal. clear. induction (numberToString n) as [|c s IH]; [reflexivity|].
    cbn [append]. now rewrite <- IH. }
  split; [exact Hexact|]. split; [now apply parseIntOrZero_printed|]. split.
  - unfold parseIntOrZero. now rewrite (parseInt_not_a_number junk Hjunk).
  - intros Hsame. unfold updateTeamStats.
    rewrite (parseIntOrZero_printed n tail Ht).
    induction team as [|m rest IH]; [reflexivity|].
    cbn [map]. rewrite IH by (intros x Hx; apply Hsame; now right).
    f_equal. destruct (Z.eqb_spec (id m) id0) as [Hid|_]; [|reflexivity].
    rewrite <- (Hsame m (or_introl eq_refl) Hid). now destruct m.
Qed.

Lemma X10_typed_value_witness :
  parseIntOrZero (numberToString 45) = 45 /\
  parseIntOrZero (numberToString 45 ++ ".75") = 45 /\
  parseIntOrZero "  pages" = 0 /\
  updateTeamStats INITIAL_TEAM 1 totalPagesField (numberToString 45 ++ ".75") = INITIAL_TEAM.
Proof.
  assert (Hsafe : Z.abs 45 <= 9007199254740991) by (vm_compute; discriminate).
  assert (Htail : endsNumber ".75") by (repeat split).
  assert (Hjunk : match snd (stripSign (trimStart "  pages")) with
                  | EmptyString => True
                  | String c _ => digitValue 10 c = None
                  end) by reflexivity.
  destruct (X10_typed_value 45 ".75" "  pages" INITIAL_TEAM 1 Hsafe Htail Hjunk)
    as [H1 [H2 [H3 H4]]].
  split; [exact H1|]. split; [exact H2|]. split; [exact H3|].
  apply H4. intros m Hin Hid. each_member Hin; try reflexivity; discriminate Hid.
Defined.

(** ** The retry loop *)

Lemma backoffTrace_S (from k : nat) :
  backoffTrace from (S k) =
    (backoffTrace from k ++
     [Fetched (from + k); Slept (1000 * 2 ^ Z.of_nat (from + k))])%list.
Proof.
  unfold backoffTrace. rewrite seq_S, flat_map_app. reflexivity.
Qed.

Lemma backoffTrace_cons (from k : nat) :
  backoffTrace from (S k) =
    (Fetched from :: Slept (1000 * 2 ^ Z.of_nat from) :: backoffTrace (S from) k)%list.
Proof. reflexivity. Qed.

Lemma totalSlept_app (a b : list Effect) :
  totalSlept (a ++ b) = totalSlept a + totalSlept b.
Proof.
  induction a as [|e a IH]; [reflexivity|].
  cbn [app totalSlept fold_right]. fold (totalSlept (a ++ b)) (totalSlept a).
  rewrite IH. destruct e; lia.
Qed.

Lemma fetchCount_app (a b : list Effect) :
  fetchCount (a ++ b) = (fetchCount a + fetchCount b)%nat.
Proof.
  induction a as [|e a IH]; [reflexivity|].
  cbn [app fetchCount fold_right]. fold (fetchCount (a ++ b)) (fetchCount a).
  rewrite IH. destruct e; lia.
Qed.

Lemma backoffTrace_totals (k : nat) :
  totalSlept (backoffTrace 0 k) = 1000 * (2 ^ Z.of_nat k - 1) /\
  fetchCount (backoffTrace 0 k) = k.
Proof.
  induction k as [|k [IHs IHc]]; [split; reflexivity|].
  rewrite backoffTrace_S, totalSlept_app, fetchCount_app, IHs, IHc.
  cbn [totalSlept fetchCount fold_right Nat.add].
  rewrite Nat2Z.inj_succ, Z.pow_succ_r by lia. split; lia.
Qed.

(** After [k] failing attempts the loop is where it would be had it started
    there. *)
Lemma backoffLoop_retries (fetch : nat -> FetchResult) (k : nat) :
  forall (remaining attempt : nat) (trace : list Effect),
    (forall i, (attempt <= i < attempt + k)%nat -> retries (fetch i) = true) ->
    backoffLoop fetch (k + remaining) attempt trace =
      backoffLoop fetch remaining (attempt + k) (trace ++ backoffTrace attempt k).
Proof.
  induction k as [|k IH]; intros remaining attempt trace Hfail.
  - cbn [Nat.add backoffTrace seq flat_map]. now rewrite Nat.add_0_r, app_nil_r.
  - cbn [Nat.add backoffLoop].
    assert (H0 : retries (fetch attempt) = true) by (apply Hfail; lia).
    assert (Hstep : backoffLoop fetch (k + remaining) (S attempt)
                      (trace ++ [Fetched attempt; Slept (1000 * 2 ^ Z.of_nat attempt)]) =
                    backoffLoop fetch remaining (attempt + S k)
                      (trace ++ backoffTrace attempt (S k))).
    { rewrite IH by (intros i Hi; apply Hfail; lia).
      rewrite backoffTrace_cons, <- app_assoc. f_equal. lia. }
    destruct (fetch attempt) as [|response]; [exact Hstep|].
    cbn [retries] in H0. rewrite H0. exact Hstep.
Qed.

(** How many attempts fail before the first that does not, up to [n]. *)
Lemma first_success (fetch : nat -> FetchResult) (n : nat) :
  (forall i, (i < n)%nat -> retries (fetch i) = true) \/
  (exists k, (k < n)%nat /\ retries (fetch k) = false /\
             forall i, (i < k)%nat -> retries (fetch i) = true).
Proof.
  induction n as [|n [IH|[k [Hk [Hok Hbefore]]]]].
  - left. intros i Hi. lia.
  - destruct (retries (fetch n)) eqn:Hn.
    + left. intros i Hi. destruct (Nat.eq_dec i n) as [->|Hne]; [exact Hn|].
      apply IH. lia.
    + right. exists n. repeat split; [lia|exact Hn|exact IH].
  - right. exists k. repeat split; [lia|exact Hok|exact Hbefore].
Qed.

Lemma fetch_success (fetch : nat -> FetchResult) (maxAttempts : Z) (k : nat)
      (response : Response) :
  Z.of_nat k < maxAttempts ->
  (forall i, (i < k)%nat -> retries (fetch i) = true) ->
  fetch k = Resolved response ->
  status response <> 429 ->
  fetchWithBackoff fetch maxAttempts =
    (Return response, (backoffTrace 0 k ++ [Fetched k])%list).
Proof.
  intros Hk Hfail Hfetch Hstatus. unfold fetchWithBackoff.
  replace (Z.to_nat maxAttempts) with (k + S (Z.to_nat maxAttempts - S k))%nat by lia.
  rewrite backoffLoop_retries by (intros i Hi; apply Hfail; lia).
  cbn [backoffLoop Nat.add app]. rewrite Hfetch.
  apply Z.eqb_neq in Hstatus. now rewrite Hstatus.
Qed.

Lemma fetch_exhausted (fetch : nat -> FetchResult) (maxAttempts : Z) :
  (forall i, Z.of_nat i < maxAttempts -> retries (fetch i) = true) ->
  fetchWithBackoff fetch maxAttempts =
    (Throw "Error", backoffTrace 0 (Z.to_nat maxAttempts)).
Proof.
  intros Hfail. unfold fetchWithBackoff.
  replace (Z.to_nat maxAttempts) with (Z.to_nat maxAttempts + 0)%nat at 1 by lia.
  rewrite backoffLoop_retries by (intros i Hi; apply Hfail; lia).
  reflexivity.
Qed.

(** ** X11: the first usable answer is returned *)

(** X11. When the first [k] attempts are rejected or answered with status
    429, attempt [k] is still within [maxAttempts] and is answered with
    another status, [fetchWithBackoff] returns that answer, whatever its
    status (an error status other than 429 is not retried). It has then made
    [k + 1] calls and slept 1000, 2000, 4000, ... milliseconds between them,
    [1000 * (2^k - 1)] in all. *)
Theorem X11_backoff_success (fetch : nat -> FetchResult) (maxAttempts : Z) (k : nat)
        (response : Response) :
  Z.of_nat k < maxAttempts ->
  (forall i, (i < k)%nat -> retries (fetch i) = true) ->
  fetch k = Resolved response ->
  status response <> 429 ->
  fetchWithBackoff fetch maxAttempts =
    (Return response, (backoffTrace 0 k ++ [Fetched k])%list) /\
  fetchCount (snd (fetchWithBackoff fetch maxAttempts)) = S k /\
  totalSlept (snd (fetchWithBackoff fetch maxAttempts)) = 1000 * (2 ^ Z.of_nat k - 1).
Proof.
  intros Hk Hfail Hfetch Hstatus.
  rewrite (fetch_success fetch maxAttempts k response Hk Hfail Hfetch Hstatus).
  cbn [snd]. rewrite fetchCount_app, totalSlept_app.
  destruct (backoffTrace_totals k) as [-> ->].
  cbn [fetchCount totalSlept fold_right]. repeat split; lia.
Qed.

Lemma X11_backoff_success_witness :
  fetchWithBackoff SampleService.flakyService defaultMaxAttempts =
    (Return SampleService.serverError,
     [Fetched 0; Slept 1000; Fetched 1; Slept 2000; Fetched 2]) /\
  totalSlept (snd (fetchWithBackoff SampleService.flakyService defaultMaxAttempts)) = 3000.
Proof.
  assert (Hk : Z.of_nat 2 < defaultMaxAttempts) by reflexivity.
  assert (Hfail : forall i, (i < 2)%nat -> retries (SampleService.flakyService i) = true).
  { intros i Hi. destruct i as [|[|i]]; [reflexivity|reflexivity|lia]. }
  assert (Hstatus : status SampleService.serverError <> 429) by discriminate.
  destruct (X11_backoff_success SampleService.flakyService defaultMaxAttempts 2
              SampleService.serverError Hk Hfail eq_refl Hstatus) as [Hres [_ Hslept]].
  split; [exact Hres|exact Hslept].
Defined.

(** ** X12: giving up *)

(** X12. When every attempt within [maxAttempts] is rejected or answered with
    status 429, [fetchWithBackoff] throws an Error after [maxAttempts] calls.
    It sleeps after the last failed call as well, so it has waited
    [1000 * (2^maxAttempts - 1)] milliseconds when it throws (7 seconds with
    the default of 3). With a [maxAttempts] of zero or less it throws at
    once, without any call. *)
Theorem X12_backoff_exhausted (fetch : nat -> FetchResult) (maxAttempts : Z) :
  (forall i, Z.of_nat i < maxAttempts -> retries (fetch i) = true) ->
  fetchWithBackoff fetch maxAttempts =
    (Throw "Error", backoffTrace 0 (Z.to_nat maxAttempts)) /\
  fetchCount (snd (fetchWithBackoff fetch maxAttempts)) = Z.to_nat maxAttempts /\
  totalSlept (snd (fetchWithBackoff fetch maxAttempts)) =
    1000 * (2 ^ Z.max 0 maxAttempts - 1) /\
  (maxAttempts <= 0 -> fetchWithBackoff fetch maxAttempts = (Throw "Error", [])).
Proof.
  intros Hfail. rewrite (fetch_exhausted fetch maxAttempts Hfail). cbn [snd].
  destruct (backoffTrace_totals (Z.to_nat maxAttempts)) as [Hs Hc].
  split; [reflexivity|]. split; [exact Hc|]. split.
  - rewrite Hs. do 3 f_equal. lia.
  - intros Hle. replace (Z.to_nat maxAttempts) with 0%nat by lia. reflexivity.
Qed.

Lemma X12_backoff_exhausted_witness :
  fetchWithBackoff (fun _ => Rejected) defaultMaxAttempts =
    (Throw "Error",
     [Fetched 0; Slept 1000; Fetched 1; Slept 2000; Fetched 2; Slept 4000]) /\
  totalSlept (snd (fetchWithBackoff (fun _ => Rejected) defaultMaxAttempts)) = 7000.
Proof.
  assert (Hfail : forall i, Z.of_nat i < defaultMaxAttempts ->
                            retries ((fun _ : nat => Rejected) i) = true)
    by (intros i _; reflexivity).
  destruct (X12_backoff_exhausted (fun _ => Rejected) defaultMaxAttempts Hfail)
    as [Hres [_ [Hslept _]]].
  split; [exact Hres|exact Hslept].
Defined.

(** ** X13: what the retry loop never does *)

(** X13. Whatever the service does, [fetchWithBackoff] makes at most
    [maxAttempts] calls, in the order of the attempts, and never hands a
    response with status 429 to its caller: it either returns the answer of
    the first attempt that was neither rejected nor a 429, or throws an Error
    once [maxAttempts] attempts have failed. *)
Theorem X13_backoff_outcomes (fetch : nat -> FetchResult) (maxAttempts : Z) :
  (fetchCount (snd (fetchWithBackoff fetch maxAttempts)) <= Z.to_nat maxAttempts)%nat /\
  ((exists k response,
       Z.of_nat k < maxAttempts /\
       (forall i, (i < k)%nat -> retries (fetch i) = true) /\
       fetch k = Resolved response /\ status response <> 429 /\
       fetchWithBackoff fetch maxAttempts =
         (Return response, (backoffTrace 0 k ++ [Fetched k])%list)) \/
   ((forall i, Z.of_nat i < maxAttempts -> retries (fetch i) = true) /\
    fetchWithBackoff fetch maxAttempts =
      (Throw "Error", backoffTrace 0 (Z.to_nat maxAttempts)))).
Proof.
  destruct (first_success fetch (Z.to_nat maxAttempts)) as [Hall|[k [Hk [Hok Hbefore]]]].
  - assert (Hfail : forall i, Z.of_nat i < maxAttempts -> retries (fetch i) = true)
      by (intros i Hi; apply Hall; lia).
    rewrite (fetch_exhausted fetch maxAttempts Hfail). cbn [snd].
    split; [rewrite (proj2 (backoffTrace_totals _)); lia|].
    right. split; [exact Hfail|reflexivity].
  - destruct (fetch k) as [|response] eqn:Hfetch; [discriminate Hok|].
    cbn [retries] in Hok. apply Z.eqb_neq in Hok.
    assert (Hlt : Z.of_nat k < maxAttempts) by lia.
    rewrite (fetch_success fetch maxAttempts k response Hlt Hbefore Hfetch Hok).
    cbn [snd]. split.
    + rewrite fetchCount_app, (proj2 (backoffTrace_totals k)).
      cbn [fetchCount fold_right]. lia.
    + left. exists k, response. repeat split; trivial.
Qed.

(** ** Code fences *)

Lemma prefix_cons (a b : ascii) (p s : string) :
  String.prefix (String a p) (String b s) =
    if ascii_dec a b then String.prefix p s else false.
Proof. reflexivity. Qed.

Lemma prefix_same (a : ascii) (p s : string) :
  String.prefix (String a p) (String a s) = String.prefix p s.
Proof.
  rewrite prefix_cons. destruct (ascii_dec a a); [reflexivity|contradiction].
Qed.

Lemma prefix_other (a b : ascii) (p s : string) :
  b <> a -> String.prefix (String a p) (String b s) = false.
Proof.
  intros H. rewrite prefix_cons. destruct (ascii_dec a b); [congruence|reflexivity].
Qed.

Lemma fence_not_here_1 (c : ascii) (r : string) :
  c <> "`"%char -> String.prefix fence (String c r) = false.
Proof.
  intros H. unfold fence. now apply prefix_other.
Qed.

Lemma fence_not_here_2 (c : ascii) (r : string) :
  c <> "`"%char -> String.prefix fence (String "`" (String c r)) = false.
Proof.
  intros H. unfold fence. rewrite prefix_same. now apply prefix_other.
Qed.

Lemma fence_not_here_3 (c : ascii) (r : string) :
  c <> "`"%char -> String.prefix fence (String "`" (String "`" (String c r))) = false.
Proof.
  intros H. unfold fence. rewrite !prefix_same. now apply prefix_other.
Qed.

Lemma fence_here (r : string) :
  String.prefix fence (String "`" (String "`" (String "`" r))) = true.
Proof.
  unfold fence. rewrite !prefix_same. now destruct r.
Qed.

Lemma removeAll_keep (pat : string) (c : ascii) (rest : string) :
  String.prefix pat (String c rest) = false ->
  removeAll pat (String c rest) = String c (removeAll pat rest).
Proof.
  intros H. unfold removeAll. cbn [removeAllFrom]. now rewrite H.
Qed.

Lemma removeAll_fence_drop (rest : string) :
  removeAll fence (String "`" (String "`" (String "`" rest))) = removeAll fence rest.
Proof.
  unfold removeAll. cbn [removeAllFrom]. now rewrite fence_here.
Qed.

Lemma no_fence_left (n : nat) :
  forall s, (String.length s <= n)%nat -> includes fence (removeAll fence s) = false.
Proof.
  induction n as [|n IH]; intros s Hlen.
  - destruct s; [reflexivity|simpl in Hlen; lia].
  - destruct s as [|c1 s1]; [reflexivity|]. simpl in Hlen.
    destruct (ascii_dec c1 "`") as [->|H1].
    + destruct s1 as [|c2 s2]; [reflexivity|]. simpl in Hlen.
      destruct (ascii_dec c2 "`") as [->|H2].
      * destruct s2 as [|c3 s3]; [reflexivity|]. simpl in Hlen.
        destruct (ascii_dec c3 "`") as [->|H3].
        -- rewrite removeAll_fence_drop. apply IH. lia.
        -- rewrite removeAll_keep by now apply fence_not_here_3.
           rewrite removeAll_keep by now apply fence_not_here_2.
           rewrite removeAll_keep by now apply fence_not_here_1.
           rewrite includes_cons, fence_not_here_3 by exact H3.
           rewrite includes_cons, fence_not_here_2 by exact H3.
           rewrite includes_cons, fence_not_here_1 by exact H3.
           apply IH. lia.
      * rewrite removeAll_keep by now apply fence_not_here_2.
        rewrite removeAll_keep by now apply fence_not_here_1.
        rewrite includes_cons, fence_not_here_2 by exact H2.
        rewrite includes_cons, fence_not_here_1 by exact H2.
        apply IH. lia.
    + rewrite removeAll_keep by now apply fence_not_here_1.
      rewrite includes_cons, fence_not_here_1 by exact H1.
      apply IH. lia.
Qed.

Lemma includes_trimStart (k s : string) :
  includes k (trimStart s) = true -> includes k s = true.
Proof.
  induction s as [|c s IH]; [trivial|].
  cbn [trimStart]. destruct (isWhiteSpace c); [|trivial].
  intros H. rewrite includes_cons, (IH H). apply orb_true_r.
Qed.

Lemma trimEnd_prefix (s : string) : exists w, s = trimEnd s ++ w.
Proof.
  induction s as [|c s [w Hw]]; [now exists EmptyString|].
  cbn [trimEnd]. destruct (trimEnd s) as [|d kept] eqn:Hk.
  - destruct (isWhiteSpace c).
    + now exists (String c s).
    + exists s. reflexivity.
  - exists w. now rewrite Hw at 1.
Qed.

Lemma includes_trim (k s : string) :
  includes k (trim s) = true -> includes k s = true.
Proof.
  unfold trim. intros H. apply includes_trimStart.
  destruct (trimEnd_prefix (trimStart s)) as [w Hw].
  rewrite Hw. now apply includes_app_l.
Qed.

(** ** X14: no code fence survives the clean-up *)

(** X14. Whatever the answer text is, the cleaned text contains no run of
    three backticks, and it neither starts nor ends with white space. *)
Theorem X14_no_fence_left (text : string) :
  includes fence (cleanText text) = false /\
  trimStart (cleanText text) = cleanText text /\
  trimEnd (cleanText text) = cleanText text.
Proof.
  split; [|split].
  - unfold cleanText.
    destruct (includes fence (trim (removeAll fence (removeAll jsonFence text))))
      eqn:H; [|reflexivity].
    apply includes_trim in H.
    now rewrite (no_fence_left _ _ (Nat.le_refl _)) in H.
  - unfold cleanText, trim.
    generalize (removeAll fence (removeAll jsonFence text)). intros s.
    assert (Hstart : forall t, trimStart (trimStart t) = trimStart t).
    { induction t as [|c t IH]; [reflexivity|].
      cbn [trimStart]. destruct (isWhiteSpace c) eqn:Hc; [exact IH|].
      cbn [trimStart]. now rewrite Hc. }
    assert (Hhead : forall t, trimStart t = t -> trimStart (trimEnd t) = trimEnd t).
    { intros [|c t]; [reflexivity|].
      cbn [trimStart trimEnd]. destruct (isWhiteSpace c) eqn:Hc.
      - intros Heq. exfalso.
        assert (Hl : (String.length (trimStart t) <= String.length t)%nat).
        { clear. induction t as [|d t IH]; [simpl; lia|].
          cbn [trimStart]. destruct (isWhiteSpace d); simpl in *; lia. }
        rewrite Heq in Hl. simpl in Hl. lia.
      - intros _. destruct (trimEnd t); cbn [trimStart]; now rewrite Hc. }
    apply Hhead, Hstart.
  - unfold cleanText, trim.
    generalize (trimStart (removeAll fence (removeAll jsonFence text))). intros s.
    induction s as [|c s IH]; [reflexivity|].
    cbn [trimEnd]. destruct (trimEnd s) as [|d kept] eqn:Hk.
    + destruct (isWhiteSpace c) eqn:Hc; [reflexivity|].
      cbn [trimEnd]. now rewrite Hc.
    + cbn [trimEnd]. cbn [trimEnd] in IH. now rewrite IH.
Qed.

(** ** Texts without backticks, and blanks *)

Lemma string_app_assoc (a b c : string) : (a ++ b) ++ c = a ++ (b ++ c).
Proof.
  induction a as [|x a IH]; [reflexivity|]. cbn [append]. now rewrite IH.
Qed.

Lemma string_app_empty (a : string) : a ++ EmptyString = a.
Proof.
  induction a as [|x a IH]; [reflexivity|]. cbn [append]. now rewrite IH.
Qed.

Lemma chars_app (a b : string) :
  list_ascii_of_string (a ++ b) =
    (list_ascii_of_string a ++ list_ascii_of_string b)%list.
Proof.
  induction a as [|x a IH]; [reflexivity|]. cbn [append list_ascii_of_string app].
  now rewrite IH.
Qed.

Lemma noBacktick_app (a b : string) :
  noBacktick a -> noBacktick b -> noBacktick (a ++ b).
Proof.
  intros Ha Hb c Hc. rewrite chars_app in Hc.
  apply in_app_or in Hc. destruct Hc; [now apply Ha|now apply Hb].
Qed.

Lemma blank_noBacktick (w : string) : blank w -> noBacktick w.
Proof.
  intros Hw c Hc. specialize (Hw c Hc).
  destruct (Ascii.eqb_spec c "`") as [->|_]; [discriminate Hw|reflexivity].
Qed.

Lemma removeAll_noBacktick (p s t : string) :
  noBacktick s ->
  removeAll (String "`" p) (s ++ t) = s ++ removeAll (String "`" p) t.
Proof.
  induction s as [|c s IH]; intros Hs; [reflexivity|].
  cbn [append].
  assert (Hc : c <> "`"%char).
  { intros ->. specialize (Hs "`"%char (or_introl eq_refl)). discriminate Hs. }
  rewrite removeAll_keep by now apply prefix_other.
  rewrite IH; [reflexivity|].
  intros d Hd. apply Hs. now right.
Qed.

Lemma removeAll_jsonFence_head (t : string) :
  removeAll jsonFence (jsonFence ++ t) = removeAll jsonFence t.
Proof.
  unfold removeAll, jsonFence. cbn [append removeAllFrom].
  rewrite !prefix_same. replace (String.prefix EmptyString t) with true by now destruct t.
  reflexivity.
Qed.

Lemma trimStart_blank (w s : string) : blank w -> trimStart (w ++ s) = trimStart s.
Proof.
  induction w as [|c w IH]; intros Hw; [reflexivity|].
  cbn [append trimStart]. rewrite (Hw c (or_introl eq_refl)).
  apply IH. intros d Hd. apply Hw. now right.
Qed.

Lemma trimEnd_blank (s w : string) : blank w -> trimEnd (s ++ w) = trimEnd s.
Proof.
  intros Hw.
  assert (Hnil : trimEnd w = EmptyString).
  { induction w as [|c w IH]; [reflexivity|].
    cbn [trimEnd]. rewrite IH by (intros d Hd; apply Hw; now right).
    now rewrite (Hw c (or_introl eq_refl)). }
  induction s as [|c s IH]; [exact Hnil|].
  cbn [append trimEnd]. now rewrite IH.
Qed.

Lemma trimStart_shorter (s : string) :
  (String.length (trimStart s) <= String.length s)%nat.
Proof.
  induction s as [|c s IH]; [simpl; lia|].
  cbn [trimStart]. destruct (isWhiteSpace c); simpl in *; lia.
Qed.

Lemma trim_padded (w1 body w2 : string) :
  blank w1 -> blank w2 ->
  trimStart body = body -> trimEnd body = body ->
  trim (w1 ++ body ++ w2) = body.
Proof.
  intros H1 H2 Hstart Hend. unfold trim. rewrite (trimStart_blank w1 _ H1).
  destruct body as [|c b].
  - cbn [append]. rewrite <- (string_app_empty w2) at 1.
    rewrite (trimStart_blank w2 EmptyString H2). reflexivity.
  - assert (Hc : isWhiteSpace c = false).
    { destruct (isWhiteSpace c) eqn:E; [|reflexivity]. exfalso.
      cbn [trimStart] in Hstart. rewrite E in Hstart.
      assert (Hl := trimStart_shorter b). rewrite Hstart in Hl. simpl in Hl. lia. }
    cbn [append trimStart]. rewrite Hc.
    change (String c (b ++ w2)) with (String c b ++ w2).
    now rewrite (trimEnd_blank _ w2 H2).
Qed.

(** ** X15: a fenced answer is reduced to its payload *)

(** X15. An answer made of the opening fence with the json tag, blanks, a
    payload, blanks and the closing fence is cleaned to the payload, provided
    the payload contains no backtick and neither starts nor ends with white
    space; [answerText] returns it. The same payload without fences, with or
    without blanks around it, is cleaned to itself. *)
Theorem X15_fenced_answer (w1 body w2 : string) :
  blank w1 -> blank w2 -> noBacktick body ->
  trimStart body = body -> trimEnd body = body ->
  cleanText (jsonFence ++ w1 ++ body ++ w2 ++ fence) = body /\
  answerText (val (jsonFence ++ w1 ++ body ++ w2 ++ fence)) = Return body /\
  cleanText (w1 ++ body ++ w2) = body /\
  cleanText body = body.
Proof.
  intros H1 H2 Hbody Hstart Hend.
  assert (Hinner : noBacktick (w1 ++ body ++ w2)).
  { apply noBacktick_app; [now apply blank_noBacktick|].
    apply noBacktick_app; [exact Hbody|now apply blank_noBacktick]. }
  assert (Hplain : forall s, noBacktick s -> cleanText s = trim s).
  { intros s Hs. unfold cleanText, jsonFence, fence.
    rewrite <- (string_app_empty s) at 1.
    rewrite (removeAll_noBacktick _ s EmptyString Hs).
    rewrite (removeAll_noBacktick _ s EmptyString Hs).
    cbn [removeAll removeAllFrom]. now rewrite !string_app_empty. }
  assert (Hfenced : cleanText (jsonFence ++ w1 ++ body ++ w2 ++ fence) = body).
  { unfold cleanText. rewrite removeAll_jsonFence_head.
    replace (w1 ++ body ++ w2 ++ fence) with ((w1 ++ body ++ w2) ++ fence)
      by now rewrite !string_app_assoc.
    unfold jsonFence at 1. rewrite (removeAll_noBacktick _ _ fence Hinner).
    change (removeAll (String "`" "``json") fence) with fence.
    unfold fence at 1. rewrite (removeAll_noBacktick _ _ fence Hinner).
    change (removeAll (String "`" "``") fence) with EmptyString.
    rewrite string_app_empty. now apply trim_padded. }
  split; [exact Hfenced|]. split; [|split].
  - unfold answerText. cbn [jsonFence append truthy]. f_equal. exact Hfenced.
  - rewrite (Hplain _ Hinner). now apply trim_padded.
  - rewrite (Hplain _ Hbody). unfold trim. now rewrite Hstart.
Qed.

Lemma X15_fenced_answer_witness :
  cleanText (jsonFence ++ nl ++ "{ }" ++ nl ++ fence) = "{ }" /\
  answerText (val (jsonFence ++ nl ++ "{ }" ++ nl ++ fence)) = Return "{ }".
Proof.
  assert (Hnl : blank nl) by (intros c Hc; each_member Hc; reflexivity).
  assert (Hbody : noBacktick "{ }") by (intros c Hc; each_member Hc; reflexivity).
  destruct (X15_fenced_answer nl "{ }" nl Hnl Hnl Hbody eq_refl eq_refl)
    as [H1 [H2 _]].
  split; [exact H1|exact H2].
Defined.

(** ** X16: noise around a restricted prefix *)

Lemma cleanPrefix_app (a b : string) :
  cleanPrefix (a ++ b) = cleanPrefix a ++ cleanPrefix b.
Proof.
  induction a as [|c a IH]; [reflexivity|].
  cbn [append cleanPrefix]. destruct (keptChar c); cbn [append]; now rewrite IH.
Qed.

Lemma cleanPrefix_noise (j : string) : noise j -> cleanPrefix j = EmptyString.
Proof.
  induction j as [|c j IH]; intros Hj; [reflexivity|].
  cbn [cleanPrefix]. rewrite (Hj c (or_introl eq_refl)).
  apply IH. intros d Hd. apply Hj. now right.
Qed.

Lemma cleanPrefix_idem (a : string) : cleanPrefix (cleanPrefix a) = cleanPrefix a.
Proof.
  induction a as [|c a IH]; [reflexivity|].
  cbn [cleanPrefix]. destruct (keptChar c) eqn:Hc; [|exact IH].
  cbn [cleanPrefix]. now rewrite Hc, IH.
Qed.

Lemma cleanPrefix_restricted (p : string) :
  In p keyingPrefixes -> cleanPrefix p = p.
Proof.
  intros Hin. each_member Hin; reflexivity.
Qed.

(** X16. Characters outside 0-9 and A-Z, lower-case letters included, are
    noise for the prefix check wherever they stand in a token: a token that
    spells a restricted prefix with noise before, inside and after it is
    cleaned to that prefix, and a line item carrying that token alone
    qualifies with it unless the false-positive rule applies. Cleaning a
    cleaned token changes nothing. *)
Theorem X16_noise_is_ignored (a b j0 j1 j2 : string) :
  noise j0 -> noise j1 -> noise j2 ->
  cleanPrefix (j0 ++ a ++ j1 ++ b ++ j2) = cleanPrefix (a ++ b) /\
  cleanPrefix (cleanPrefix (j0 ++ a ++ j1 ++ b ++ j2)) =
    cleanPrefix (j0 ++ a ++ j1 ++ b ++ j2) /\
  (In (a ++ b) keyingPrefixes ->
   cleanPrefix (j0 ++ a ++ j1 ++ b ++ j2) = a ++ b /\
   forall item,
     prefixes item = val [j0 ++ a ++ j1 ++ b ++ j2] ->
     falsePositive item = false ->
     qualifies item (a ++ b)).
Proof.
  intros H0 H1 H2.
  assert (Hclean : cleanPrefix (j0 ++ a ++ j1 ++ b ++ j2) = cleanPrefix (a ++ b)).
  { rewrite !cleanPrefix_app.
    rewrite (cleanPrefix_noise j0 H0), (cleanPrefix_noise j1 H1), (cleanPrefix_noise j2 H2).
    cbn [append]. now rewrite string_app_empty. }
  split; [exact Hclean|]. split; [apply cleanPrefix_idem|].
  intros Hin.
  assert (Heq : cleanPrefix (j0 ++ a ++ j1 ++ b ++ j2) = a ++ b).
  { rewrite Hclean. now apply cleanPrefix_restricted. }
  split; [exact Heq|].
  intros item Hitem Hfp. split; [exact Hfp|].
  unfold badPrefix, cleanPrefixList. rewrite Hitem. cbn [orEmpty map find].
  rewrite Heq.
  assert (Hk : arrayIncludes keyingPrefixes (a ++ b) = true).
  { unfold arrayIncludes. apply existsb_exists. exists (a ++ b).
    split; [exact Hin|apply String.eqb_refl]. }
  now rewrite Hk.
Qed.

Lemma X16_noise_is_ignored_witness :
  cleanPrefix "no.5-9 " = "59" /\
  qualifies (Sample.item "4" 1 "8804" ["no.5-9 "]) "59".
Proof.
  assert (H0 : noise "no.") by (intros c Hc; each_member Hc; reflexivity).
  assert (H1 : noise "-") by (intros c Hc; each_member Hc; reflexivity).
  assert (H2 : noise " ") by (intros c Hc; each_member Hc; reflexivity).
  assert (Hin : In ("5" ++ "9") keyingPrefixes) by (simpl; do 4 right; left; reflexivity).
  destruct (X16_noise_is_ignored "5" "9" "no." "-" " " H0 H1 H2) as [_ [_ Hq]].
  destruct (Hq Hin) as [Hclean Hitem].
  split; [exact Hclean|].
  exact (Hitem (Sample.item "4" 1 "8804" ["no.5-9 "]) eq_refl eq_refl).
Defined.

(** ** X17: a keyword that is never reported *)

Lemma includes_tail (c : ascii) (k t : string) :
  includes (String c k) t = true -> includes k t = true.
Proof.
  induction t as [|d t IH]; [discriminate|].
  rewrite !includes_cons. intros H. apply orb_true_iff in H.
  destruct H as [H|H].
  - rewrite prefix_cons in H. destruct (ascii_dec c d); [|discriminate].
    clear IH. apply orb_true_iff. right.
    destruct t as [|x t].
    + destruct k; [reflexivity|discriminate].
    + rewrite includes_cons, H. reflexivity.
  - rewrite (IH H). apply orb_true_r.
Qed.

(** X17. The keyword "GMK" of the configured list is never the one reported:
    a text that contains it contains "MK", which stands before it in the
    list, so the keyword found is "MK" and no decision carries the evidence
    of "GMK". *)
Theorem X17_GMK_never_reported (data : ExtractionResult) :
  foundKeyword data <> Some "GMK" /\
  (includes "GMK" (globalText data) = true -> foundKeyword data = Some "MK") /\
  (forall team d,
      determineRouting team data = Return d ->
      evidence d <> val (keywordEvidence "GMK")).
Proof.
  assert (Hshadow : includes "GMK" (globalText data) = true ->
                    foundKeyword data = Some "MK").
  { intros H. apply includes_tail in H. unfold foundKeyword, keyingKeywords.
    cbn [find]. now rewrite H. }
  assert (Hnot : foundKeyword data <> Some "GMK").
  { intros Hf.
    assert (Hm : includes "GMK" (globalText data) = true).
    { unfold foundKeyword in Hf. apply find_some in Hf. apply Hf. }
    rewrite (Hshadow Hm) in Hf. discriminate. }
  split; [exact Hnot|]. split; [exact Hshadow|].
  intros team d.
  destruct (detection_kinds data)
    as [[pre [item [bad [post [Hsplit [Hpre Hq]]]]]]|[[Hno [kw Hf]]|Hno]].
  - rewrite (determineRouting_prefix team data pre post item bad Hsplit Hpre Hq).
    intros H. injection H as <-. cbn [evidence]. unfold prefixEvidence, keywordEvidence.
    cbn [append]. discriminate.
  - rewrite (determineRouting_keyword team data kw Hno Hf).
    intros H. injection H as <-. cbn [evidence].
    assert (Hin : In kw keyingKeywords).
    { unfold foundKeyword in Hf. apply find_some in Hf. apply Hf. }
    intros Heq. apply Hnot. rewrite Hf. f_equal.
    each_member Hin; try reflexivity; vm_compute in Heq; discriminate Heq.
  - rewrite (determineRouting_balanced team data Hno).
    destruct (targetRep team); [|discriminate].
    intros H. injection H as <-. discriminate.
Qed.
